(** * Route_Finder_App: the route booking component [MapView.tsx]

    A shallow embedding of the client logic of
    [frontend_Web/src/components/MapView.tsx]: address resolution
    ([getCoordinates]), route acquisition ([getRoutes]), selection
    ([handleRouteClick]) and the dummy estimate ([handleChooseRoute]),
    together with the component's React state and the events the rendered
    tree can deliver to it.

    JavaScript numbers are IEEE 754 binary64 values; they are modelled by
    Rocq's primitive floats, which are the same format.  Strings are
    modelled as byte strings (UTF-8).  Array indices and array lengths are
    natural numbers.

    The two services (Nominatim, OSRM) are a parameter of every operation
    that calls them: what they answer is not decided by the component.
    Rendering and styling are left out, except for the conditions under
    which the rendered tree hands a click to a handler.  The second, smaller
    [MapView] of the repository (a map centred on the device position) and
    [App] hold no logic of their own. *)

From Stdlib Require Import List String Ascii Bool ZArith Lia.
From Stdlib Require Import Floats.
From Stdlib Require Uint63.
Import ListNotations.

(* Decimal literals such as [0.1] denote the nearest binary64 value, as they
   do in the source. *)
#[local] Set Warnings "-inexact-float".

Local Open Scope string_scope.
Local Open Scope list_scope.

(** ** Numbers *)

Module Num.

(** A JavaScript [number]. *)
Definition number : Type := float.

(** The number denoted by an array length or an array index; the
    conversion is exact below [2 ^ 53], and array lengths are below
    [2 ^ 32]. *)
Definition of_nat (n : nat) : number :=
  PrimFloat.of_uint63 (Uint63.of_Z (Z.of_nat n)).

(** Correctly rounded (to nearest, ties to even) value of [n / d]. *)
Definition round_ratio (neg : bool) (n d : positive) : number :=
  let '(q, e, l) := SFdiv_core_binary prec emax (Zpos n) 0 (Zpos d) 0 in
  SF2Prim (binary_round_aux prec emax neg q e l).

(** The number denoted by the decimal [m * 10 ^ e]. *)
Definition of_decimal (neg : bool) (m : N) (e : Z) : number :=
  match m with
  | N0 => if neg then neg_zero else zero
  | Npos p =>
      match e with
      | Zneg k => round_ratio neg p (Pos.pow 10 k)
      | Z0 => round_ratio neg p 1
      | Zpos k => round_ratio neg (p * Pos.pow 10 k) 1
      end
  end.

(** ToBoolean on a number: [0], [-0] and [NaN] are falsy. *)
Definition truthy (x : number) : bool :=
  negb (PrimFloat.is_zero x || PrimFloat.is_nan x).

End Num.

Import Num.

(** ** The global [parseFloat] *)

Module JS.

Definition is_digit (c : ascii) : bool :=
  let n := nat_of_ascii c in (48 <=? n)%nat && (n <=? 57)%nat.

Definition digit_value (c : ascii) : N := (N_of_ascii c - 48)%N.

(** One-byte WhiteSpace and LineTerminator code points:
    TAB, LF, VT, FF, CR and SP. *)
Definition is_ws1 (c : ascii) : bool :=
  let n := nat_of_ascii c in
  ((9 <=? n)%nat && (n <=? 13)%nat) || (n =? 32)%nat.

(** U+00A0, encoded on two bytes. *)
Definition is_ws2 (c1 c2 : ascii) : bool :=
  (nat_of_ascii c1 =? 194)%nat && (nat_of_ascii c2 =? 160)%nat.

(** U+1680, U+2000..U+200A, U+2028, U+2029, U+202F, U+205F, U+3000 and
    U+FEFF, encoded on three bytes. *)
Definition is_ws3 (c1 c2 c3 : ascii) : bool :=
  let a := nat_of_ascii c1 in
  let b := nat_of_ascii c2 in
  let c := nat_of_ascii c3 in
  ((a =? 225) && (b =? 154) && (c =? 128))%nat
  || ((a =? 226) && (b =? 128)
      && (((128 <=? c) && (c <=? 138)) || (c =? 168) || (c =? 169) || (c =? 175)))%nat
  || ((a =? 226) && (b =? 129) && (c =? 159))%nat
  || ((a =? 227) && (b =? 128) && (c =? 128))%nat
  || ((a =? 239) && (b =? 187) && (c =? 191))%nat.

(** TrimString(input, start). *)
Fixpoint trim_start (s : string) : string :=
  match s with
  | EmptyString => s
  | String c1 s1 =>
      if is_ws1 c1 then trim_start s1 else
      match s1 with
      | EmptyString => s
      | String c2 s2 =>
          if is_ws2 c1 c2 then trim_start s2 else
          match s2 with
          | EmptyString => s
          | String c3 s3 => if is_ws3 c1 c2 c3 then trim_start s3 else s
          end
      end
  end.

(** Reads a maximal run of decimal digits: the value accumulated on
    [acc], the number of digits read added to [cnt], and the rest. *)
Fixpoint scan_digits (acc : N) (cnt : nat) (s : string) : N * nat * string :=
  match s with
  | EmptyString => (acc, cnt, s)
  | String c s' =>
      if is_digit c
      then scan_digits (acc * 10 + digit_value c)%N (S cnt) s'
      else (acc, cnt, s)
  end.

Definition scan_sign (s : string) : bool * string :=
  match s with
  | String "+" r => (false, r)
  | String "-" r => (true, r)
  | _ => (false, s)
  end.

(** ExponentPart, when the prefix has one; [0] otherwise. *)
Definition scan_exponent (s : string) : Z :=
  match s with
  | String c s1 =>
      if (Ascii.eqb c "e" || Ascii.eqb c "E")%char then
        let '(neg, s2) := scan_sign s1 in
        let '(v, n, _) := scan_digits 0 0 s2 in
        match n with
        | O => 0%Z
        | S _ => if neg then Z.opp (Z.of_N v) else Z.of_N v
        end
      else 0%Z
  | EmptyString => 0%Z
  end.

(** [parseFloat(string)]: the value of the longest prefix of the trimmed
    input that is a StrDecimalLiteral, [NaN] when there is none. *)
Definition parseFloat (input : string) : number :=
  let '(neg, s) := scan_sign (trim_start input) in
  if String.prefix "Infinity" s
  then (if neg then neg_infinity else infinity)
  else
    let '(ip, n1, s1) := scan_digits 0 0 s in
    let '(m, n2, s2) :=
      match s1 with
      | String "." r => scan_digits ip 0 r
      | _ => (ip, O, s1)
      end in
    match n1, n2 with
    | O, O => nan
    | _, _ => of_decimal neg m (scan_exponent s2 - Z.of_nat n2)
    end.

(** ToBoolean on a string: only the empty string is falsy. *)
Definition truthy_string (s : string) : bool :=
  match s with
  | EmptyString => false
  | String _ _ => true
  end.

End JS.

Import JS.

(** ** Data model *)

(** [[number, number]]: a pair of degrees.  Inside the component the order
    is (latitude, longitude); in an OSRM geometry it is (longitude,
    latitude). *)
Definition LatLng : Type := (number * number)%type.

(** One candidate of a Nominatim search ([NominatimSearchResponse]). *)
Record NominatimSearchResponse : Type := {
  lat : string;
  lon : string
}.

(** The body of an OSRM answer ([OSRMRouteResponse]). *)
Module OSRM.
Record Geometry : Type := { coordinates : list (number * number) }.
Record RouteObject : Type := { geometry : Geometry }.
Record RouteResponse : Type := { routes : list RouteObject }.
End OSRM.

Record Route : Type := {
  coords : list LatLng;
  endCoords : LatLng
}.

(** The component's React state, one field per [useState]. *)
Record State : Type := {
  userCoords : LatLng;
  userAddress : string;
  destination : string;
  routes : list Route;
  selectedRoute : option nat;
  estimatedTime : option number;
  estimatedCost : option number;
  fullscreen : bool
}.

(** The state of the first render. *)
Definition initial : State := {|
  userCoords := (20.5937%float, 78.9629%float);
  userAddress := "";
  destination := "";
  routes := [];
  selectedRoute := None;
  estimatedTime := None;
  estimatedCost := None;
  fullscreen := false
|}.

(** The state setters. *)
Definition setUserCoords (c : LatLng) (s : State) : State :=
  {| userCoords := c; userAddress := userAddress s;
     destination := destination s; routes := routes s;
     selectedRoute := selectedRoute s; estimatedTime := estimatedTime s;
     estimatedCost := estimatedCost s; fullscreen := fullscreen s |}.

Definition setUserAddress (a : string) (s : State) : State :=
  {| userCoords := userCoords s; userAddress := a;
     destination := destination s; routes := routes s;
     selectedRoute := selectedRoute s; estimatedTime := estimatedTime s;
     estimatedCost := estimatedCost s; fullscreen := fullscreen s |}.

Definition setDestination (d : string) (s : State) : State :=
  {| userCoords := userCoords s; userAddress := userAddress s;
     destination := d; routes := routes s;
     selectedRoute := selectedRoute s; estimatedTime := estimatedTime s;
     estimatedCost := estimatedCost s; fullscreen := fullscreen s |}.

Definition setRoutes (rs : list Route) (s : State) : State :=
  {| userCoords := userCoords s; userAddress := userAddress s;
     destination := destination s; routes := rs;
     selectedRoute := selectedRoute s; estimatedTime := estimatedTime s;
     estimatedCost := estimatedCost s; fullscreen := fullscreen s |}.

Definition setSelectedRoute (i : option nat) (s : State) : State :=
  {| userCoords := userCoords s; userAddress := userAddress s;
     destination := destination s; routes := routes s;
     selectedRoute := i; estimatedTime := estimatedTime s;
     estimatedCost := estimatedCost s; fullscreen := fullscreen s |}.

Definition setEstimatedTime (t : option number) (s : State) : State :=
  {| userCoords := userCoords s; userAddress := userAddress s;
     destination := destination s; routes := routes s;
     selectedRoute := selectedRoute s; estimatedTime := t;
     estimatedCost := estimatedCost s; fullscreen := fullscreen s |}.

Definition setEstimatedCost (c : option number) (s : State) : State :=
  {| userCoords := userCoords s; userAddress := userAddress s;
     destination := destination s; routes := routes s;
     selectedRoute := selectedRoute s; estimatedTime := estimatedTime s;
     estimatedCost := c; fullscreen := fullscreen s |}.

Definition setFullscreen (b : bool) (s : State) : State :=
  {| userCoords := userCoords s; userAddress := userAddress s;
     destination := destination s; routes := routes s;
     selectedRoute := selectedRoute s; estimatedTime := estimatedTime s;
     estimatedCost := estimatedCost s; fullscreen := b |}.

(** ** Exceptions, the console and the network *)

Inductive Exn : Type :=
| Error (message : string)      (* [new Error(message)] *)
| TypeError                     (* a property read on [undefined] *)
| AxiosError (code : string).   (* a request that did not succeed *)

Inductive result (A : Type) : Type :=
| Ok (a : A)
| Throw (e : Exn).

Arguments Ok {A} a.
Arguments Throw {A} e.

(** The lines the four operations write to the console. *)
Inductive LogEntry : Type :=
| LogCoordinates (address : string) (found : NominatimSearchResponse)
    (* log: 'Coordinates fetched for address:' *)
| ErrCoordinates (error : Exn)
    (* error: 'Failed to get coordinates:' *)
| LogRoutes (fetched : list Route)
    (* log: 'Routes fetched:' *)
| ErrRoutes (err : Exn)
    (* error: 'Failed to fetch routes:' *)
| LogClicked (index : nat)
    (* log: 'Route clicked:' *)
| LogCalculated (time cost : number).
    (* log: 'Calculated time:' ... 'minutes, Cost:' ... 'units' *)

(** The parameters of a routing request, in the order of the URL:
    [driving/{lng},{lat};{lng},{lat}?...&alternatives={i}]. *)
Record RouteRequest : Type := {
  from_lng : number; from_lat : number;
  to_lng : number; to_lat : number;
  alternatives : nat
}.

(** What the two services answer while one fetch runs: a body, or a
    rejected request. *)
Record Net : Type := {
  search : string -> result (list NominatimSearchResponse);
  route : RouteRequest -> result OSRM.RouteResponse
}.

(** ** Computations of the component

    A computation runs on the current React state, may replace it through
    the setters, writes lines to the console, and either returns a value
    or throws.  State changes and console lines made before a throw stay. *)

Definition M (A : Type) : Type := State -> result A * State * list LogEntry.

Definition ret {A} (a : A) : M A := fun s => (Ok a, s, []).

Definition throw {A} (e : Exn) : M A := fun s => (Throw e, s, []).

Definition bind {A B} (m : M A) (k : A -> M B) : M B :=
  fun s =>
    match m s with
    | (Ok a, s1, l1) => let '(r, s2, l2) := k a s1 in (r, s2, l1 ++ l2)
    | (Throw e, s1, l1) => (Throw e, s1, l1)
    end.

(** [try { m } catch (e) { h e }]. *)
Definition try_catch {A} (m : M A) (h : Exn -> M A) : M A :=
  fun s =>
    match m s with
    | (Ok a, s1, l1) => (Ok a, s1, l1)
    | (Throw e, s1, l1) => let '(r, s2, l2) := h e s1 in (r, s2, l1 ++ l2)
    end.

(** [await p] for a promise that has settled with [r]. *)
Definition await {A} (r : result A) : M A := fun s => (r, s, []).

Definition console (l : LogEntry) : M unit := fun s => (Ok tt, s, [l]).

Definition set (f : State -> State) : M unit := fun s => (Ok tt, f s, []).

Declare Scope comp_scope.
Delimit Scope comp_scope with comp.
Notation "x <- m ;; k" := (bind m (fun x => k))
  (at level 61, m at next level, right associativity) : comp_scope.
Notation "m ;; k" := (bind m (fun _ => k))
  (at level 61, right associativity) : comp_scope.
Local Open Scope comp_scope.

(** The three components of what a computation leaves. *)
Definition outcome {A} (x : result A * State * list LogEntry) : result A :=
  fst (fst x).
Definition state_after {A} (x : result A * State * list LogEntry) : State :=
  snd (fst x).
Definition printed {A} (x : result A * State * list LogEntry) : list LogEntry :=
  snd x.

(** ** [Promise.all] *)

Section PromiseAll.
Context {A : Type}.

(** The values in the order of the promises, or the rejection of the
    first rejected promise of the list. *)
Fixpoint settle_all (rs : list (result A)) : result (list A) :=
  match rs with
  | [] => Ok []
  | Ok a :: rest =>
      match settle_all rest with
      | Ok l => Ok (a :: l)
      | Throw e => Throw e
      end
  | Throw e :: _ => Throw e
  end.

(** The rejection of the promise that settles first among the rejected
    ones, [order] listing the promises as they settle. *)
Fixpoint first_rejection (order : list nat) (rs : list (result A)) : option Exn :=
  match order with
  | [] => None
  | j :: rest =>
      match nth_error rs j with
      | Some (Throw e) => Some e
      | _ => first_rejection rest rs
      end
  end.

(** [Promise.all(rs)]: fulfilled with all the values in the order of
    [rs] when every promise is fulfilled, rejected with the earliest
    rejection otherwise. *)
Definition Promise_all (order : list nat) (rs : list (result A)) : result (list A) :=
  match settle_all rs with
  | Ok l => Ok l
  | Throw e0 =>
      Throw match first_rejection order rs with
            | Some e => e
            | None => e0
            end
  end.
End PromiseAll.

(** ** The operations of [MapView] *)

(** Lines 112-124. *)
Definition getCoordinates (net : Net) (address : string) : M LatLng :=
  try_catch
    (data <- await (search net address) ;;
     match data with
     | [] => throw (Error "Invalid address")
     | first :: _ =>
         console (LogCoordinates address first) ;;
         ret (parseFloat (lat first), parseFloat (lon first))
     end)
    (fun error =>
       console (ErrCoordinates error) ;;
       throw error).

(** The swap of line 139: [([lng, lat]) => [lat, lng]]. *)
Definition swap_lng_lat (p : number * number) : LatLng :=
  let '(lng, lat) := p in (lat, lng).

(** The request of line 137 for alternative [i]: both points are sent
    longitude first. *)
Definition routeRequest (start end_ : LatLng) (i : nat) : RouteRequest :=
  {| from_lng := snd start; from_lat := fst start;
     to_lng := snd end_; to_lat := fst end_;
     alternatives := i |}.

(** The body of the mapper of lines 135-141, for alternative [i]:
    [res.data.routes[0]] is [undefined] when the answer has no route. *)
Definition fetchRoute (net : Net) (start end_ : LatLng) (i : nat) : result Route :=
  match route net (routeRequest start end_ i) with
  | Throw e => Throw e
  | Ok data =>
      match OSRM.routes data with
      | [] => Throw TypeError
      | first :: _ =>
          Ok {| coords := map swap_lng_lat (OSRM.coordinates (OSRM.geometry first));
                endCoords := end_ |}
      end
  end.

(** ToBoolean on an array: every object is truthy. *)
Definition truthy_array (c : LatLng) : bool := true.

(** Lines 126-150.  [cl] is the state of the render whose handler runs: the
    closure reads [userAddress], [userCoords] and [destination] from it,
    while the setters act on the state current when they are called.
    [order] lists the three routing requests as they settle.

    The [try] block (lines 128-146): *)
Definition getRoutes_try (net : Net) (order : list nat) (cl : State) : M unit :=
  start <- (if truthy_string (userAddress cl)
            then getCoordinates net (userAddress cl)
            else ret (userCoords cl)) ;;
  end_ <- getCoordinates net (destination cl) ;;
  (if truthy_array start
   then ret tt
   else throw (Error "Starting location is not available")) ;;
  fetchedRoutes <- await (Promise_all order
                            (map (fetchRoute net start end_) [0; 1; 2]%nat)) ;;
  console (LogRoutes fetchedRoutes) ;;
  set (setRoutes fetchedRoutes) ;;
  set (setSelectedRoute None).

(** and the whole function, with its [catch] (lines 147-149). *)
Definition getRoutes (net : Net) (order : list nat) (cl : State) : M unit :=
  try_catch (getRoutes_try net order cl)
            (fun err => console (ErrRoutes err)).

(** Lines 152-155. *)
Definition handleRouteClick (index : nat) : M unit :=
  console (LogClicked index) ;;
  set (setSelectedRoute (Some index)).

(** Lines 157-168.  [cl] is the state of the render whose handler runs;
    [selectedRoute] and [routes] are read from it. *)
Definition handleChooseRoute (cl : State) : M unit :=
  match selectedRoute cl with
  | None => ret tt
  | Some i =>
      match nth_error (routes cl) i with
      | None => throw TypeError
      | Some r =>
          let distance := (of_nat (List.length (coords r)) * 0.1)%float in
          let time := (distance * 2)%float in
          let cost := (distance * 10)%float in
          console (LogCalculated time cost) ;;
          set (setEstimatedTime (Some time)) ;;
          set (setEstimatedCost (Some cost))
      end
  end.

(** ** What the rendered tree shows and accepts (lines 170-270) *)

(** [estimatedTime && estimatedCost]: the estimate panel is shown. *)
Definition estimate_displayed (s : State) : bool :=
  match estimatedTime s, estimatedCost s with
  | Some t, Some c => truthy t && truthy c
  | _, _ => false
  end.

(** [routes.length > 0 && selectedRoute === null]: the block holding the
    Choose button is rendered. *)
Definition choose_rendered (s : State) : bool :=
  (0 <? List.length (routes s))%nat
  && match selectedRoute s with None => true | Some _ => false end.

(** [disabled={selectedRoute === null}]. *)
Definition choose_disabled (s : State) : bool :=
  match selectedRoute s with None => true | Some _ => false end.

(** [selectedRoute === null && routes.map(...)]: the polyline of index [i]
    is drawn with its click handler. *)
Definition polyline_clickable (s : State) (i : nat) : bool :=
  match selectedRoute s with None => true | Some _ => false end
  && (i <? List.length (routes s))%nat.

(** ** The component as a transition system

    The component's state together with the [getRoutes] calls that wait for
    the network, each with the state of the render it was started from. *)
Record Sys : Type := {
  ui : State;
  inflight : list State
}.

Definition boot : Sys := {| ui := initial; inflight := [] |}.

Inductive Event : Type :=
| Located (c : LatLng)                  (* geolocation succeeded *)
| ReverseGeocoded (display_name : string)
| TypeAddress (a : string)              (* pickup input changed *)
| TypeDestination (d : string)          (* destination input changed *)
| ClickSearch                           (* 'Search Routes' *)
| Settled (k : nat) (net : Net) (order : list nat)
                                        (* the [k]-th waiting fetch finishes *)
| ClickPolyline (i : nat)
| ClickChoose
| ToggleFullscreen.

Fixpoint remove_nth {A} (k : nat) (l : list A) : list A :=
  match l, k with
  | [], _ => []
  | _ :: t, O => t
  | x :: t, S k' => x :: remove_nth k' t
  end.

(** The effect of an event; [None] when the rendered tree cannot deliver
    it. *)
Definition fire (ev : Event) (s : Sys) : option Sys :=
  match ev with
  | Located c =>
      Some {| ui := setUserCoords c (ui s); inflight := inflight s |}
  | ReverseGeocoded a | TypeAddress a =>
      Some {| ui := setUserAddress a (ui s); inflight := inflight s |}
  | TypeDestination d =>
      Some {| ui := setDestination d (ui s); inflight := inflight s |}
  | ClickSearch =>
      Some {| ui := ui s; inflight := inflight s ++ [ui s] |}
  | Settled k net order =>
      match nth_error (inflight s) k with
      | None => None
      | Some cl =>
          Some {| ui := state_after (getRoutes net order cl (ui s));
                  inflight := remove_nth k (inflight s) |}
      end
  | ClickPolyline i =>
      if polyline_clickable (ui s) i
      then Some {| ui := state_after (handleRouteClick i (ui s));
                   inflight := inflight s |}
      else None
  | ClickChoose =>
      if choose_rendered (ui s) && negb (choose_disabled (ui s))
      then Some {| ui := state_after (handleChooseRoute (ui s) (ui s));
                   inflight := inflight s |}
      else None
  | ToggleFullscreen =>
      Some {| ui := setFullscreen (negb (fullscreen (ui s))) (ui s);
              inflight := inflight s |}
  end.

Fixpoint run (evs : list Event) (s : Sys) : option Sys :=
  match evs with
  | [] => Some s
  | ev :: rest =>
      match fire ev s with
      | Some s' => run rest s'
      | None => None
      end
  end.

Definition reachable (s : Sys) : Prop :=
  exists evs, run evs boot = Some s.

(** "Selection, if set, is a valid index into the current route list". *)
Definition selection_valid (s : State) : Prop :=
  match selectedRoute s with
  | None => True
  | Some i => (i < List.length (routes s))%nat
  end.

(** Latitude within [-90, 90] and longitude within [-180, 180]. *)
Definition in_range (c : LatLng) : bool :=
  ((-90 <=? fst c) && (fst c <=? 90) && (-180 <=? snd c) && (snd c <=? 180))%float.

(** ** The plan of a fetch, read off [getCoordinates] and [getRoutes] *)

(** What [getCoordinates] settles with; it depends on the answer of the
    geocoder only (lemma [getCoordinates_outcome]). *)
Definition resolve (net : Net) (address : string) : result LatLng :=
  outcome (getCoordinates net address initial).

(** Line 128: the start point of a fetch started from the render [cl]. *)
Definition start_of (net : Net) (cl : State) : result LatLng :=
  if truthy_string (userAddress cl)
  then resolve net (userAddress cl)
  else Ok (userCoords cl).

(** The route list a fetch is about to install, or the exception its [try]
    block throws. *)
Definition fetch_plan (net : Net) (order : list nat) (cl : State) : result (list Route) :=
  match start_of net cl with
  | Throw e => Throw e
  | Ok start =>
      match resolve net (destination cl) with
      | Throw e => Throw e
      | Ok end_ =>
          Promise_all order (map (fetchRoute net start end_) [0; 1; 2]%nat)
      end
  end.

(** A geocoder answer that makes the resolution fail: no candidate, or a
    rejected request. *)
Definition no_match_or_rejected (r : result (list NominatimSearchResponse)) : Prop :=
  r = Ok [] \/ exists e, r = Throw e.

(** ** Sample data

    The scenario of the specification: the destination "India Gate, Delhi",
    searched from the default position. *)

Module Sample.

Definition india_gate : NominatimSearchResponse :=
  {| lat := "28.6129"; lon := "77.2295" |}.

(** An OSRM answer with one route of three points, longitude first. *)
Definition answer : OSRM.RouteResponse :=
  {| OSRM.routes :=
       [ {| OSRM.geometry :=
              {| OSRM.coordinates :=
                   [ (78.9629, 20.5937); (78.1, 24.5); (77.2295, 28.6129) ]%float
              |} |} ] |}.

(** Both services answer. *)
Definition net_ok : Net :=
  {| search := fun _ => Ok [india_gate];
     route := fun _ => Ok answer |}.

(** The geocoder finds nothing. *)
Definition net_no_match : Net :=
  {| search := fun _ => Ok [];
     route := fun _ => Ok answer |}.

(** The request for alternative 2 is rejected. *)
Definition net_route_down : Net :=
  {| search := fun _ => Ok [india_gate];
     route := fun rq =>
       match alternatives rq with
       | 2%nat => Throw (AxiosError "ERR_NETWORK")
       | _ => Ok answer
       end |}.

(** The geocoder answers with a latitude of 91 degrees. *)
Definition net_far_north : Net :=
  {| search := fun _ => Ok [ {| lat := "91"; lon := "0" |} ];
     route := fun _ => Ok answer |}.

(** The destination has been typed. *)
Definition asked : State := setDestination "India Gate, Delhi" initial.

(** The three routes have arrived. *)
Definition fetched : State :=
  state_after (getRoutes net_ok [0; 1; 2]%nat asked asked).

(** Route 1 has been clicked. *)
Definition picked : State :=
  state_after (handleRouteClick 1 fetched).

(** The choice has been confirmed: an estimate is on display. *)
Definition estimated : State :=
  state_after (handleChooseRoute picked picked).

End Sample.

(** ** The mount effect (lines 64-89)

    [navigator.geolocation.getCurrentPosition] calls back once, with a
    position or with an error; on a position the component asks Nominatim
    for the address of the place.  The effect has no dependencies: its
    callbacks belong to the first render, whose state is [cl]. *)

(** The body of a reverse geocoding answer ([NominatimReverseResponse]). *)
Record NominatimReverseResponse : Type := { display_name : string }.

Inductive GeolocationResult : Type :=
| Position (latitude longitude : number)
| PositionError (code : nat).

(** The console lines of the effect. *)
Inductive MountLine : Type :=
| LogAttempt                          (* 'Attempting to get user location...' *)
| LogCoordsSet (coords : LatLng)      (* 'User coords set:' *)
| LogAddressFetched (name : string)   (* 'User address fetched:' *)
| ErrReverse (error : Exn)            (* 'Failed to reverse geocode:' *)
| ErrGeolocation (code : nat)         (* 'Geolocation error:' *)
| LogUsingDefault (coords : LatLng).  (* 'Using default coords:' *)

(** Lines 68-71: the success callback, up to its [await]. *)
Definition onPosition (latitude longitude : number) (s : State)
  : State * list MountLine :=
  let coords := (latitude, longitude) in
  (setUserCoords coords s, [LogCoordsSet coords]).

(** Lines 73-81: the rest of the success callback, once the reverse
    geocoding request has settled with [r]. *)
Definition onReverseSettled (r : result NominatimReverseResponse) (s : State)
  : State * list MountLine :=
  match r with
  | Ok data =>
      (setUserAddress (display_name data) s,
       [LogAddressFetched (display_name data)])
  | Throw error => (s, [ErrReverse error])
  end.

(** Lines 83-87: the error callback. *)
Definition onPositionError (cl : State) (code : nat) (s : State)
  : State * list MountLine :=
  (s, [ErrGeolocation code; LogUsingDefault (userCoords cl)]).

(** The whole effect, when nothing else happens while it runs; [reverse]
    is the answer of Nominatim for a latitude and a longitude. *)
Definition mountEffect (cl : State) (geo : GeolocationResult)
           (reverse : number -> number -> result NominatimReverseResponse)
           (s : State) : State * list MountLine :=
  match geo with
  | Position latitude longitude =>
      let '(s1, l1) := onPosition latitude longitude s in
      let '(s2, l2) := onReverseSettled (reverse latitude longitude) s1 in
      (s2, LogAttempt :: l1 ++ l2)
  | PositionError code =>
      let '(s1, l1) := onPositionError cl code s in
      (s1, LogAttempt :: l1)
  end.

(** ** [MapController] (lines 92-110)

    What the effect of [MapController] does to the Leaflet map and prints,
    in order.  [FitBounds points] stands for
    [map.fitBounds(L.latLngBounds(points))]. *)
Inductive MapAction : Type :=
| LogCentering (center : LatLng)
| SetView (center : LatLng) (zoom : nat)
| InvalidateSize
| LogFitSelected (index : nat)
| LogFitFirst
| FitBounds (points : list LatLng).

(** The [else if] branch of lines 103-107. *)
Definition fitFirstRoute (s : State) : list MapAction :=
  if (0 <? List.length (routes s))%nat
  then match routes s with
       | first :: _ => [LogFitFirst; FitBounds (coords first)]
       | [] => []
       end
  else [].

Definition MapController (s : State) : list MapAction :=
  [LogCentering (userCoords s); SetView (userCoords s) 13; InvalidateSize]
  ++ match selectedRoute s with
     | Some i =>
         match nth_error (routes s) i with
         | Some r => [LogFitSelected i; FitBounds (coords r)]
         | None => fitFirstRoute s
         end
     | None => fitFirstRoute s
     end.

(** ** The rendered tree (lines 170-270)

    The parts of the tree that depend on the state.  A slot
    [{a && b && <X/>}] shows nothing when the expression is [null] or
    [false], the number itself when it is [0] or [NaN], and the element
    otherwise. *)
Inductive Slot (A : Type) : Type :=
| Nothing
| Number (n : number)
| Element (a : A).

Arguments Nothing {A}.
Arguments Number {A} n.
Arguments Element {A} a.

(** A [<Polyline>]: [onClick] is the index its click handler passes to
    [handleRouteClick], when it has a handler. *)
Record PolylineEl : Type := {
  positions : list LatLng;
  color : string;
  weight : option nat;
  onClick : option nat
}.

(** Line 248. *)
Definition routeColor (index : nat) : string :=
  match index with
  | 0%nat => "blue"
  | 1%nat => "green"
  | _ => "purple"
  end.

(** [l.map((x, index) => f x index)], the indices starting at [k]. *)
Fixpoint map_indexed {A B} (f : A -> nat -> B) (k : nat) (l : list A) : list B :=
  match l with
  | [] => []
  | x :: rest => f x k :: map_indexed f (S k) rest
  end.

Record View : Type := {
  rootClass : string;                    (* line 171 *)
  pickupValue : string;                  (* line 179 *)
  destinationValue : string;             (* line 189 *)
  chooseButton : option bool;            (* lines 202-218: [Some disabled] *)
  estimatePanel : Slot (number * number);
    (* lines 220-225: the numbers given to [toFixed(1)] and [toFixed(2)] *)
  userMarker : option LatLng;            (* line 241 *)
  endMarker : option LatLng;             (* line 242 *)
  polylines : list PolylineEl;           (* lines 243-260 *)
  fullscreenLabel : string               (* line 266 *)
}.

Definition render (s : State) : View :=
  {| rootClass :=
       "flex " ++ (if fullscreen s
                   then "fixed inset-0 z-50 bg-white"
                   else "h-screen");
     pickupValue := userAddress s;
     destinationValue := destination s;
     chooseButton :=
       if choose_rendered s then Some (choose_disabled s) else None;
     estimatePanel :=
       match estimatedTime s with
       | None => Nothing
       | Some t =>
           if truthy t then
             match estimatedCost s with
             | None => Nothing
             | Some c => if truthy c then Element (t, c) else Number c
             end
           else Number t
       end;
     userMarker :=
       if truthy_array (userCoords s) then Some (userCoords s) else None;
     endMarker :=
       if (0 <? List.length (routes s))%nat
       then match routes s with
            | first :: _ => Some (endCoords first)
            | [] => None
            end
       else None;
     polylines :=
       match selectedRoute s with
       | Some i =>
           match nth_error (routes s) i with
           | Some r => [ {| positions := coords r; color := "blue";
                            weight := None; onClick := None |} ]
           | None => []
           end
       | None =>
           map_indexed
             (fun route index =>
                {| positions := coords route; color := routeColor index;
                   weight := Some 5%nat; onClick := Some index |})
             0 (routes s)
       end;
     fullscreenLabel :=
       if fullscreen s then "Exit Fullscreen" else "Fullscreen" |}.

(** ** More sample data *)

Module Scenes.

(** A geocoder that knows two places. *)
Definition two_places (address : string) : result (list NominatimSearchResponse) :=
  if String.eqb address "India Gate, Delhi"
  then Ok [ {| lat := "28.6129"; lon := "77.2295" |} ]
  else if String.eqb address "Gateway of India, Mumbai"
       then Ok [ {| lat := "18.9220"; lon := "72.8347" |} ]
       else Ok [].

(** OSRM answers with the straight line between the two points asked. *)
Definition straight (rq : RouteRequest) : result OSRM.RouteResponse :=
  Ok {| OSRM.routes :=
          [ {| OSRM.geometry :=
                 {| OSRM.coordinates :=
                      [ (from_lng rq, from_lat rq); (to_lng rq, to_lat rq) ] |} |} ] |}.

Definition net_two_places : Net :=
  {| search := two_places; route := straight |}.

(** OSRM rejects the requests for alternatives 0 and 2, each for its own
    reason. *)
Definition net_two_down : Net :=
  {| search := two_places;
     route := fun rq =>
       match alternatives rq with
       | 0%nat => Throw (AxiosError "ECONNABORTED")
       | 2%nat => Throw (AxiosError "ERR_NETWORK")
       | _ => straight rq
       end |}.

(** OSRM answers every request with an empty geometry. *)
Definition net_no_points : Net :=
  {| search := two_places;
     route := fun _ =>
       Ok {| OSRM.routes :=
               [ {| OSRM.geometry := {| OSRM.coordinates := [] |} |} ] |} |}.

(** Reverse geocoding that names every place the same. *)
Definition reverse_ok (latitude longitude : number)
  : result NominatimReverseResponse :=
  Ok {| display_name := "India Gate, Delhi" |}.

Definition reverse_down (latitude longitude : number)
  : result NominatimReverseResponse :=
  Throw (AxiosError "ERR_NETWORK").

(** A selection beyond the route list, which no event produces. *)
Definition beyond : State := setSelectedRoute (Some 7%nat) Sample.fetched.

(** Routes without points have arrived and the first one is selected. *)
Definition pointless : State :=
  state_after (handleRouteClick 0
    (state_after (getRoutes net_no_points [0; 1; 2]%nat Sample.asked Sample.asked))).

(** Two searches have been started, for Delhi and then for Mumbai, and
    the second one has been answered. *)
Definition overtaken : Sys :=
  match run [TypeDestination "India Gate, Delhi"; ClickSearch;
             TypeDestination "Gateway of India, Mumbai"; ClickSearch;
             Settled 1 net_two_places [0; 1; 2]%nat] boot with
  | Some s => s
  | None => boot
  end.

End Scenes.

(** * Properties *)

(** ** Address resolution *)

Lemma getCoordinates_eq (net : Net) (address : string) (s : State) :
  getCoordinates net address s =
  match search net address with
  | Ok (first :: _) =>
      (Ok (parseFloat (lat first), parseFloat (lon first)), s,
       [LogCoordinates address first])
  | Ok [] =>
      (Throw (Error "Invalid address"), s,
       [ErrCoordinates (Error "Invalid address")])
  | Throw e => (Throw e, s, [ErrCoordinates e])
  end.
Proof.
  unfold getCoordinates, try_catch, bind, await.
  destruct (search net address) as [[|first rest]|e]; reflexivity.
Qed.

Lemma getCoordinates_outcome (net : Net) (address : string) (s : State) :
  outcome (getCoordinates net address s) = resolve net address.
Proof.
  unfold resolve. rewrite !getCoordinates_eq.
  destruct (search net address) as [[|first rest]|e]; reflexivity.
Qed.

Lemma getCoordinates_state (net : Net) (address : string) (s : State) :
  state_after (getCoordinates net address s) = s.
Proof.
  rewrite getCoordinates_eq.
  destruct (search net address) as [[|first rest]|e]; reflexivity.
Qed.

Lemma resolve_eq (net : Net) (address : string) :
  resolve net address =
  match search net address with
  | Ok (first :: _) => Ok (parseFloat (lat first), parseFloat (lon first))
  | Ok [] => Throw (Error "Invalid address")
  | Throw e => Throw e
  end.
Proof.
  unfold resolve. rewrite getCoordinates_eq.
  destruct (search net address) as [[|first rest]|e]; reflexivity.
Qed.

Lemma resolve_fails (net : Net) (address : string) :
  no_match_or_rejected (search net address) ->
  exists e, resolve net address = Throw e.
Proof.
  rewrite resolve_eq. intros [H | [e H]]; rewrite H; eauto.
Qed.

(** [parseFloat] on the strings a geocoder sends, and on some it should
    not. *)
Example parseFloat_latitude : parseFloat "28.6129" = 28.6129%float.
Proof. vm_compute. reflexivity. Qed.

Example parseFloat_negative : parseFloat "-77.0364827" = (-77.0364827)%float.
Proof. vm_compute. reflexivity. Qed.

Example parseFloat_prefix : parseFloat "  12.5 degrees" = 12.5%float.
Proof. vm_compute. reflexivity. Qed.

Example parseFloat_exponent : parseFloat ".5e1" = 5%float.
Proof. vm_compute. reflexivity. Qed.

Example parseFloat_dangling_exponent : parseFloat "5e+" = 5%float.
Proof. vm_compute. reflexivity. Qed.

Example parseFloat_not_a_number : parseFloat "north" = nan.
Proof. vm_compute. reflexivity. Qed.

Example parseFloat_empty : parseFloat "" = nan.
Proof. vm_compute. reflexivity. Qed.

Example parseFloat_infinity : parseFloat "-Infinity" = neg_infinity.
Proof. vm_compute. reflexivity. Qed.

Example parseFloat_overflow : parseFloat "1e400" = infinity.
Proof. vm_compute. reflexivity. Qed.

(** The number returned is the one [parseFloat] reads, which need not be
    the one the text spells: a latitude just above 90 rounds to 90, and
    text after the digits is dropped. *)
Example parseFloat_rounds_into_range :
  parseFloat "90.000000000000001" = 90%float.
Proof. vm_compute. reflexivity. Qed.

Example parseFloat_drops_suffix : parseFloat "45abc" = 45%float.
Proof. vm_compute. reflexivity. Qed.

(** ** [Promise.all] *)

Section PromiseAllFacts.
Context {A : Type}.
Implicit Types (rs : list (result A)) (l : list A) (order : list nat).

Lemma settle_all_ok rs l : settle_all rs = Ok l <-> rs = map Ok l.
Proof.
  revert l. induction rs as [|[a|e] rs IH]; intros l; simpl.
  - split.
    + intros H. injection H as <-. reflexivity.
    + destruct l; [reflexivity | discriminate].
  - destruct (settle_all rs) as [l'|e'] eqn:E.
    + split.
      * intros H. injection H as <-. simpl. f_equal. now apply IH.
      * destruct l as [|b l]; [discriminate|]. simpl. intros H.
        injection H as -> H. apply IH in H. congruence.
    + split; [discriminate|].
      destruct l as [|b l]; [discriminate|]. simpl. intros H.
      injection H as _ H. apply IH in H. discriminate.
  - split; [discriminate|]. destruct l; discriminate.
Qed.

Lemma settle_all_throw rs e :
  In (Throw e) rs -> exists e', settle_all rs = Throw e'.
Proof.
  induction rs as [|[a|e0] rs IH]; simpl; [tauto| |eauto].
  intros [H|H]; [discriminate|].
  destruct (IH H) as [e' ->]. eauto.
Qed.

Lemma settle_all_throw_in rs e : settle_all rs = Throw e -> In (Throw e) rs.
Proof.
  induction rs as [|[a|e0] rs IH]; simpl; [discriminate| |].
  - destruct (settle_all rs); [discriminate|].
    intros H. injection H as <-. right. now apply IH.
  - intros H. injection H as <-. now left.
Qed.

Lemma first_rejection_in order rs e :
  first_rejection order rs = Some e -> In (Throw e) rs.
Proof.
  induction order as [|j order IH]; simpl; [discriminate|].
  destruct (nth_error rs j) as [[a|e0]|] eqn:E; auto.
  intros H. injection H as <-. eapply nth_error_In; eassumption.
Qed.

Lemma Promise_all_ok order rs l : Promise_all order rs = Ok l <-> rs = map Ok l.
Proof.
  unfold Promise_all. rewrite <- settle_all_ok.
  destruct (settle_all rs); split; congruence.
Qed.

Lemma Promise_all_throw order rs e :
  In (Throw e) rs -> exists e', Promise_all order rs = Throw e'.
Proof.
  intros H. unfold Promise_all.
  destruct (settle_all_throw _ _ H) as [e' ->]. eauto.
Qed.

(** The rejection of [Promise.all] is the rejection of one of the
    promises. *)
Lemma Promise_all_throw_in order rs e :
  Promise_all order rs = Throw e -> In (Throw e) rs.
Proof.
  unfold Promise_all. destruct (settle_all rs) as [l|e0] eqn:E; [discriminate|].
  destruct (first_rejection order rs) as [e1|] eqn:F; intros H; injection H as <-.
  - eapply first_rejection_in; eassumption.
  - now apply settle_all_throw_in.
Qed.

Lemma Promise_all_length order rs l :
  Promise_all order rs = Ok l -> List.length l = List.length rs.
Proof.
  rewrite Promise_all_ok. intros ->. now rewrite length_map.
Qed.
End PromiseAllFacts.

(** ** The [try] block of [getRoutes] follows its plan *)

Lemma start_lookup_eq (net : Net) (cl s : State) :
  let m := if truthy_string (userAddress cl)
           then getCoordinates net (userAddress cl)
           else ret (userCoords cl) in
  outcome (m s) = start_of net cl /\ state_after (m s) = s.
Proof.
  unfold start_of. destruct (truthy_string (userAddress cl)); simpl.
  - split; [apply getCoordinates_outcome | apply getCoordinates_state].
  - split; reflexivity.
Qed.

Lemma getRoutes_try_outcome (net : Net) (order : list nat) (cl s : State) :
  outcome (getRoutes_try net order cl s) =
  match fetch_plan net order cl with
  | Ok _ => Ok tt
  | Throw e => Throw e
  end.
Proof.
  unfold getRoutes_try, fetch_plan, bind at 1.
  destruct (start_lookup_eq net cl s) as [Ho Hs]. cbv zeta in Ho, Hs.
  destruct ((if truthy_string (userAddress cl)
             then getCoordinates net (userAddress cl)
             else ret (userCoords cl)) s) as [[r1 s1] l1].
  unfold outcome, state_after in Ho, Hs. simpl in Ho, Hs. subst r1 s1.
  destruct (start_of net cl) as [start|e]; [|reflexivity].
  unfold bind at 1.
  pose proof (getCoordinates_outcome net (destination cl) s) as Ho.
  pose proof (getCoordinates_state net (destination cl) s) as Hs.
  destruct (getCoordinates net (destination cl) s) as [[r2 s2] l2].
  unfold outcome, state_after in Ho, Hs. simpl in Ho, Hs. subst r2 s2.
  destruct (resolve net (destination cl)) as [end_|e]; [|reflexivity].
  unfold bind, await, truthy_array, ret, console, set. simpl.
  destruct (Promise_all order _) as [l|e]; reflexivity.
Qed.

Lemma getRoutes_try_state (net : Net) (order : list nat) (cl s : State) :
  state_after (getRoutes_try net order cl s) =
  match fetch_plan net order cl with
  | Ok l => setSelectedRoute None (setRoutes l s)
  | Throw _ => s
  end.
Proof.
  unfold getRoutes_try, fetch_plan, bind at 1.
  destruct (start_lookup_eq net cl s) as [Ho Hs]. cbv zeta in Ho, Hs.
  destruct ((if truthy_string (userAddress cl)
             then getCoordinates net (userAddress cl)
             else ret (userCoords cl)) s) as [[r1 s1] l1].
  unfold outcome, state_after in Ho, Hs. simpl in Ho, Hs. subst r1 s1.
  destruct (start_of net cl) as [start|e]; [|reflexivity].
  unfold bind at 1.
  pose proof (getCoordinates_outcome net (destination cl) s) as Ho.
  pose proof (getCoordinates_state net (destination cl) s) as Hs.
  destruct (getCoordinates net (destination cl) s) as [[r2 s2] l2].
  unfold outcome, state_after in Ho, Hs. simpl in Ho, Hs. subst r2 s2.
  destruct (resolve net (destination cl)) as [end_|e]; [|reflexivity].
  unfold bind, await, truthy_array, ret, console, set. simpl.
  destruct (Promise_all order _) as [l|e]; reflexivity.
Qed.

(** The [catch] turns a throw of the [try] block into one more console
    line. *)
Lemma getRoutes_catch (net : Net) (order : list nat) (cl s : State) (e : Exn) :
  outcome (getRoutes_try net order cl s) = Throw e ->
  getRoutes net order cl s =
  (Ok tt, state_after (getRoutes_try net order cl s),
   printed (getRoutes_try net order cl s) ++ [ErrRoutes e]).
Proof.
  unfold getRoutes, try_catch, outcome, state_after, printed, console.
  destruct (getRoutes_try net order cl s) as [[[[]|e'] s1] l1]; simpl;
    intros H; [discriminate|]. now injection H as ->.
Qed.

Lemma getRoutes_pass (net : Net) (order : list nat) (cl s : State) :
  outcome (getRoutes_try net order cl s) = Ok tt ->
  getRoutes net order cl s = getRoutes_try net order cl s.
Proof.
  unfold getRoutes, try_catch, outcome.
  destruct (getRoutes_try net order cl s) as [[[[]|e'] s1] l1]; simpl;
    intros H; [reflexivity | discriminate].
Qed.

(** [getRoutes] never throws. *)
Lemma getRoutes_outcome (net : Net) (order : list nat) (cl s : State) :
  outcome (getRoutes net order cl s) = Ok tt.
Proof.
  destruct (outcome (getRoutes_try net order cl s)) as [[]|e] eqn:E.
  - now rewrite getRoutes_pass.
  - now rewrite (getRoutes_catch _ _ _ _ _ E).
Qed.

Lemma getRoutes_state (net : Net) (order : list nat) (cl s : State) :
  state_after (getRoutes net order cl s) =
  match fetch_plan net order cl with
  | Ok l => setSelectedRoute None (setRoutes l s)
  | Throw _ => s
  end.
Proof.
  destruct (outcome (getRoutes_try net order cl s)) as [[]|e] eqn:E.
  - rewrite getRoutes_pass by assumption. apply getRoutes_try_state.
  - rewrite (getRoutes_catch _ _ _ _ _ E). apply getRoutes_try_state.
Qed.

(** A plan that succeeds has resolved both ends and received the three
    routes, in the order of the alternatives. *)
Lemma fetch_plan_ok (net : Net) (order : list nat) (cl : State) (l : list Route) :
  fetch_plan net order cl = Ok l <->
  exists start end_ r0 r1 r2,
    start_of net cl = Ok start /\
    resolve net (destination cl) = Ok end_ /\
    fetchRoute net start end_ 0 = Ok r0 /\
    fetchRoute net start end_ 1 = Ok r1 /\
    fetchRoute net start end_ 2 = Ok r2 /\
    l = [r0; r1; r2].
Proof.
  unfold fetch_plan. split.
  - destruct (start_of net cl) as [start|e]; [|discriminate].
    destruct (resolve net (destination cl)) as [end_|e]; [|discriminate].
    rewrite Promise_all_ok.
    destruct l as [|r0 [|r1 [|r2 [|r3 l]]]]; try discriminate.
    simpl. intros H. injection H as H0 H1 H2.
    exists start, end_, r0, r1, r2. auto 10.
  - intros (start & end_ & r0 & r1 & r2 & -> & -> & H0 & H1 & H2 & ->).
    apply Promise_all_ok. simpl. congruence.
Qed.

Lemma fetch_plan_route_fails (net : Net) (order : list nat) (cl : State)
      (start end_ : LatLng) (i : nat) (e : Exn) :
  start_of net cl = Ok start ->
  resolve net (destination cl) = Ok end_ ->
  In i [0; 1; 2]%nat ->
  fetchRoute net start end_ i = Throw e ->
  exists e', fetch_plan net order cl = Throw e'.
Proof.
  intros Hs He Hi Hf. unfold fetch_plan. rewrite Hs, He.
  apply Promise_all_throw with (e := e).
  rewrite <- Hf. apply in_map. exact Hi.
Qed.

(** ** The transition system *)

(** A property of the state that every deliverable event preserves holds
    in every reachable state. *)
Lemma reachable_ind (P : State -> Prop) :
  P initial ->
  (forall ev s s', P (ui s) -> fire ev s = Some s' -> P (ui s')) ->
  forall s, reachable s -> P (ui s).
Proof.
  intros H0 Hstep s [evs Hrun].
  assert (G : forall evs s0, P (ui s0) -> run evs s0 = Some s -> P (ui s)).
  { clear Hrun evs. induction evs as [|ev evs IH]; simpl; intros s0 Hs0 Hrun.
    - now injection Hrun as <-.
    - destruct (fire ev s0) as [s1|] eqn:F; [|discriminate].
      eapply IH; [|eassumption]. eapply Hstep; eassumption. }
  eapply G; [|eassumption]. exact H0.
Qed.

Lemma handleRouteClick_eq (index : nat) (s : State) :
  handleRouteClick index s =
  (Ok tt, setSelectedRoute (Some index) s, [LogClicked index]).
Proof. reflexivity. Qed.

(** [handleChooseRoute] writes the two estimates and nothing else. *)
Lemma handleChooseRoute_frame (cl s : State) :
  let s' := state_after (handleChooseRoute cl s) in
  routes s' = routes s /\ selectedRoute s' = selectedRoute s.
Proof.
  unfold handleChooseRoute.
  destruct (selectedRoute cl) as [i|]; [|split; reflexivity].
  destruct (nth_error (routes cl) i) as [r|]; split; reflexivity.
Qed.

(** The Choose button is rendered only while nothing is selected, and it is
    disabled exactly then: no click on it is ever delivered. *)
Lemma choose_never_delivered (s : Sys) : fire ClickChoose s = None.
Proof.
  unfold fire, choose_rendered, choose_disabled.
  destruct (selectedRoute (ui s)); simpl;
    rewrite ?andb_false_r, ?andb_true_r; reflexivity.
Qed.

(** The route list is empty or has three routes. *)
Lemma reachable_routes_length (s : Sys) :
  reachable s ->
  List.length (routes (ui s)) = 0%nat \/ List.length (routes (ui s)) = 3%nat.
Proof.
  apply (reachable_ind
           (fun st => List.length (routes st) = 0%nat
                      \/ List.length (routes st) = 3%nat)).
  - now left.
  - intros ev s0 s' H F.
    destruct ev; try (rewrite choose_never_delivered in F; discriminate);
      simpl in F; try (injection F as <-; exact H).
    + destruct (nth_error (inflight s0) k) as [cl|]; [|discriminate].
      injection F as <-. simpl. rewrite getRoutes_state.
      destruct (fetch_plan net order cl) as [l|e] eqn:E; [|exact H].
      apply fetch_plan_ok in E.
      destruct E as (? & ? & r0 & r1 & r2 & _ & _ & _ & _ & _ & ->).
      now right.
    + destruct (polyline_clickable (ui s0) i); [|discriminate].
      injection F as <-. exact H.
Qed.

(** The estimate is never set in a reachable state. *)
Lemma reachable_no_estimate (s : Sys) :
  reachable s ->
  estimatedTime (ui s) = None /\ estimatedCost (ui s) = None.
Proof.
  apply (reachable_ind
           (fun st => estimatedTime st = None /\ estimatedCost st = None)).
  - now split.
  - intros ev s0 s' H F.
    destruct ev; try (rewrite choose_never_delivered in F; discriminate);
      simpl in F; try (injection F as <-; exact H).
    + destruct (nth_error (inflight s0) k) as [cl|]; [|discriminate].
      injection F as <-. simpl. rewrite getRoutes_state.
      destruct (fetch_plan net order cl); exact H.
    + destruct (polyline_clickable (ui s0) i); [|discriminate].
      injection F as <-. exact H.
Qed.

(** Every event keeps the selection, if set, within the route list. *)
Lemma reachable_selection_valid (s : Sys) :
  reachable s -> selection_valid (ui s).
Proof.
  apply (reachable_ind selection_valid); [exact I|].
  intros ev s0 s' H F.
  destruct ev; try (rewrite choose_never_delivered in F; discriminate);
    simpl in F; try (injection F as <-; exact H).
  - destruct (nth_error (inflight s0) k) as [cl|]; [|discriminate].
    injection F as <-. simpl. rewrite getRoutes_state.
    destruct (fetch_plan net order cl); [exact I | exact H].
  - unfold polyline_clickable in F.
    destruct (selectedRoute (ui s0)); simpl in F; [discriminate|].
    destruct (i <? List.length (routes (ui s0)))%nat eqn:L; [|discriminate].
    injection F as <-. unfold selection_valid. simpl.
    now apply Nat.ltb_lt.
Qed.

(** [setRoutes] and [setSelectedRoute] are two calls; the state between
    them, with the new list and the old selection, is valid as well. *)
Lemma selection_valid_between_setters
      (s : Sys) (net : Net) (order : list nat) (cl : State) (l : list Route) :
  reachable s ->
  fetch_plan net order cl = Ok l ->
  selection_valid (setRoutes l (ui s)).
Proof.
  intros R E. pose proof (reachable_selection_valid _ R) as V.
  pose proof (reachable_routes_length _ R) as L.
  apply fetch_plan_ok in E.
  destruct E as (? & ? & r0 & r1 & r2 & _ & _ & _ & _ & _ & ->).
  unfold selection_valid in *. simpl.
  destruct (selectedRoute (ui s)) as [i|]; [|exact I].
  destruct L as [L|L]; rewrite L in V; [inversion V | exact V].
Qed.

(** The scenario of the specification, event by event: the destination is
    typed, the search is started and answered, and the polyline of route 1
    is clicked. *)
Example scenario_select :
  run [TypeDestination "India Gate, Delhi"; ClickSearch;
       Settled 0 Sample.net_ok [0; 1; 2]%nat; ClickPolyline 1] boot
  = Some {| ui := Sample.picked; inflight := [] |}.
Proof. vm_compute. reflexivity. Qed.

Example scenario_routes :
  map endCoords (routes Sample.fetched)
  = [ (28.6129, 77.2295); (28.6129, 77.2295); (28.6129, 77.2295) ]%float
  /\ selectedRoute Sample.fetched = None.
Proof. vm_compute. split; reflexivity. Qed.

(** A fetch answered while another one is still waiting. *)
Example scenario_two_fetches :
  option_map (fun s => (selectedRoute (ui s), List.length (routes (ui s)),
                        List.length (inflight s)))
    (run [TypeDestination "India Gate, Delhi"; ClickSearch; ClickSearch;
          Settled 1 Sample.net_ok [0; 1; 2]%nat; ClickPolyline 2;
          Settled 0 Sample.net_route_down [2; 1; 0]%nat] boot)
  = Some (Some 2%nat, 3%nat, 0%nat).
Proof. vm_compute. reflexivity. Qed.

(** ** Routes *)

Lemma fetchRoute_ok_inv (net : Net) (start end_ : LatLng) (i : nat) (r : Route) :
  fetchRoute net start end_ i = Ok r ->
  exists data first rest,
    route net (routeRequest start end_ i) = Ok data /\
    OSRM.routes data = first :: rest /\
    r = {| coords := map swap_lng_lat (OSRM.coordinates (OSRM.geometry first));
           endCoords := end_ |}.
Proof.
  unfold fetchRoute.
  destruct (route net (routeRequest start end_ i)) as [data|e]; [|discriminate].
  destruct (OSRM.routes data) as [|first rest] eqn:E; [discriminate|].
  intros H. injection H as <-. exists data, first, rest. auto.
Qed.

(** A routing request fails when it is rejected or when its answer holds no
    route. *)
Lemma fetchRoute_throw_iff (net : Net) (start end_ : LatLng) (i : nat) :
  (exists e, fetchRoute net start end_ i = Throw e) <->
  (exists e, route net (routeRequest start end_ i) = Throw e) \/
  (exists data, route net (routeRequest start end_ i) = Ok data /\
                OSRM.routes data = []).
Proof.
  unfold fetchRoute.
  destruct (route net (routeRequest start end_ i)) as [data|e].
  - destruct (OSRM.routes data) as [|first rest] eqn:E; split.
    + intros _. right. eauto.
    + intros _. eauto.
    + intros [e H]. discriminate.
    + intros [[e H]|(d & H & H')]; [discriminate|].
      injection H as <-. congruence.
  - split; intros _; [left|]; eauto.
Qed.

Lemma swap_lng_lat_nth (g : list (number * number)) (k : nat) (lng lat : number) :
  nth_error g k = Some (lng, lat) ->
  nth_error (map swap_lng_lat g) k = Some (lat, lng).
Proof.
  intros H. rewrite nth_error_map, H. reflexivity.
Qed.

Lemma try_ok_plan (net : Net) (order : list nat) (cl s : State) :
  outcome (getRoutes_try net order cl s) = Ok tt ->
  exists l, fetch_plan net order cl = Ok l.
Proof.
  rewrite getRoutes_try_outcome.
  destruct (fetch_plan net order cl) as [l|e]; [eauto | discriminate].
Qed.

Lemma plan_throw_fetch (net : Net) (order : list nat) (cl s : State) (e : Exn) :
  fetch_plan net order cl = Throw e ->
  getRoutes net order cl s =
  (Ok tt, s, printed (getRoutes_try net order cl s) ++ [ErrRoutes e]).
Proof.
  intros H.
  assert (E : outcome (getRoutes_try net order cl s) = Throw e)
    by now rewrite getRoutes_try_outcome, H.
  rewrite (getRoutes_catch _ _ _ _ _ E).
  now rewrite getRoutes_try_state, H.
Qed.

(** ** The claims *)

(** C1.  For every selected route whose coordinate list has [P] points,
    [handleChooseRoute] sets the estimated duration to [P * 0.1 * 2] and
    the estimated cost to [P * 0.1 * 10], the products being those of the
    source, taken from left to right on binary64 numbers: the estimate
    comes from the number of points of the geometry. *)
Theorem estimate_from_point_count (cl s : State) (i : nat) (r : Route) (P : nat) :
  selectedRoute cl = Some i ->
  nth_error (routes cl) i = Some r ->
  List.length (coords r) = P ->
  outcome (handleChooseRoute cl s) = Ok tt /\
  estimatedTime (state_after (handleChooseRoute cl s))
    = Some (of_nat P * 0.1 * 2)%float /\
  estimatedCost (state_after (handleChooseRoute cl s))
    = Some (of_nat P * 0.1 * 10)%float.
Proof.
  intros Hsel Hr <-. unfold handleChooseRoute. rewrite Hsel, Hr.
  repeat split.
Qed.

Lemma estimate_from_point_count_witness :
  outcome (handleChooseRoute Sample.picked Sample.picked) = Ok tt /\
  estimatedTime (state_after (handleChooseRoute Sample.picked Sample.picked))
    = Some (of_nat 3 * 0.1 * 2)%float /\
  estimatedCost (state_after (handleChooseRoute Sample.picked Sample.picked))
    = Some (of_nat 3 * 0.1 * 10)%float.
Proof.
  eapply estimate_from_point_count with (i := 1%nat); vm_compute; reflexivity.
Defined.

(** C9.  With no route selected, [handleChooseRoute] returns at once: the
    state, and so the estimated time and cost, is unchanged and nothing is
    printed. *)
Theorem choose_without_selection (cl s : State) :
  selectedRoute cl = None ->
  handleChooseRoute cl s = (Ok tt, s, []).
Proof.
  intros H. unfold handleChooseRoute. now rewrite H.
Qed.

Lemma choose_without_selection_witness :
  handleChooseRoute Sample.fetched Sample.fetched = (Ok tt, Sample.fetched, []).
Proof.
  apply choose_without_selection. vm_compute. reflexivity.
Defined.



(** C3.  A fetch whose [try] block completes installs its three routes and
    leaves the selection unset; and in every state the component can
    reach, the selection, if set, is an index of the current route list. *)
Theorem fetch_resets_selection (net : Net) (order : list nat) (cl s : State)
        (sys : Sys) :
  (outcome (getRoutes_try net order cl s) = Ok tt ->
   selectedRoute (state_after (getRoutes net order cl s)) = None /\
   fetch_plan net order cl = Ok (routes (state_after (getRoutes net order cl s))))
  /\
  (reachable sys -> selection_valid (ui sys)).
Proof.
  split.
  - intros H. destruct (try_ok_plan _ _ _ _ H) as [l E].
    rewrite getRoutes_state, E. split; reflexivity.
  - apply reachable_selection_valid.
Qed.

Lemma fetch_resets_selection_witness :
  selectedRoute (state_after
    (getRoutes Sample.net_ok [2; 0; 1]%nat Sample.asked Sample.picked)) = None
  /\ selection_valid Sample.picked.
Proof.
  destruct (fetch_resets_selection
              Sample.net_ok [2; 0; 1]%nat Sample.asked Sample.picked
              {| ui := Sample.picked; inflight := [] |}) as [H1 H2].
  split.
  - apply H1. vm_compute. reflexivity.
  - apply H2.
    exists [TypeDestination "India Gate, Delhi"; ClickSearch;
            Settled 0 Sample.net_ok [0; 1; 2]%nat; ClickPolyline 1].
    vm_compute. reflexivity.
Defined.

(** C4, as the specification has it, fails: with an empty route list,
    [handleRouteClick 5] sets the selection to 5. *)
Lemma click_out_of_bounds_selects :
  routes initial = [] /\
  selectedRoute (state_after (handleRouteClick 5 initial)) = Some 5%nat.
Proof. split; reflexivity. Qed.

(** C4, amended.  [handleRouteClick i] checks no bound: it sets the
    selection to [i] whatever the route list is and changes nothing else.
    Indices out of bounds are kept away by the rendered tree, which
    delivers a click only for the index of a route of the current list. *)
Theorem click_selects_unchecked (index : nat) (s : State) (sys sys' : Sys) :
  handleRouteClick index s
    = (Ok tt, setSelectedRoute (Some index) s, [LogClicked index])
  /\
  (fire (ClickPolyline index) sys = Some sys' ->
   (index < List.length (routes (ui sys)))%nat).
Proof.
  split; [reflexivity|].
  simpl. unfold polyline_clickable.
  destruct (selectedRoute (ui sys)); simpl; [discriminate|].
  destruct (index <? List.length (routes (ui sys)))%nat eqn:L; [|discriminate].
  intros _. now apply Nat.ltb_lt.
Qed.

Lemma click_selects_unchecked_witness :
  handleRouteClick 1 Sample.fetched
    = (Ok tt, setSelectedRoute (Some 1%nat) Sample.fetched, [LogClicked 1])
  /\ (1 < List.length (routes Sample.fetched))%nat.
Proof.
  destruct (click_selects_unchecked
              1 Sample.fetched
              {| ui := Sample.fetched; inflight := [] |}
              {| ui := Sample.picked; inflight := [] |}) as [H1 H2].
  split; [exact H1 | apply H2; vm_compute; reflexivity].
Defined.

(** C5, as the specification has it, fails: in a state that displays an
    estimate, [handleRouteClick 0] leaves the estimate on display. *)
Lemma click_keeps_estimate :
  estimate_displayed Sample.estimated = true /\
  estimatedTime (state_after (handleRouteClick 0 Sample.estimated))
    = Some (of_nat 3 * 0.1 * 2)%float /\
  estimatedCost (state_after (handleRouteClick 0 Sample.estimated))
    = Some (of_nat 3 * 0.1 * 10)%float /\
  estimate_displayed (state_after (handleRouteClick 0 Sample.estimated)) = true.
Proof. vm_compute. repeat split. Qed.

(** C5, amended.  [handleRouteClick] sets the selection and leaves the
    estimated time and the estimated cost as they are: an estimate on
    display stays on display. *)
Theorem click_preserves_estimate (index : nat) (s : State) :
  let s' := state_after (handleRouteClick index s) in
  selectedRoute s' = Some index /\
  estimatedTime s' = estimatedTime s /\
  estimatedCost s' = estimatedCost s /\
  estimate_displayed s' = estimate_displayed s.
Proof. repeat split. Qed.

(** C6.  Whenever a fetch fails — the geocoder finds no match for the
    pickup or for the destination, or rejects the request, or one of the
    three routing requests fails — [getRoutes] catches the exception,
    prints it as its last console line and returns normally, and the whole
    state (route list, selection and estimate included) is what it was. *)
Theorem fetch_failure_is_atomic (net : Net) (order : list nat) (cl s : State) :
  (truthy_string (userAddress cl) = true /\
   no_match_or_rejected (search net (userAddress cl)))
  \/ no_match_or_rejected (search net (destination cl))
  \/ (exists start end_ i e,
         start_of net cl = Ok start /\
         resolve net (destination cl) = Ok end_ /\
         In i [0; 1; 2]%nat /\
         fetchRoute net start end_ i = Throw e) ->
  exists e l, getRoutes net order cl s = (Ok tt, s, l ++ [ErrRoutes e]).
Proof.
  intros H.
  assert (E : exists e, fetch_plan net order cl = Throw e).
  { destruct H as [[Ht Hs] | [Hd | (start & end_ & i & e & Hs & He & Hi & Hf)]].
    - unfold fetch_plan, start_of. rewrite Ht.
      destruct (resolve_fails _ _ Hs) as [e ->]. eauto.
    - unfold fetch_plan. destruct (resolve_fails _ _ Hd) as [e ->].
      destruct (start_of net cl); eauto.
    - eapply fetch_plan_route_fails; eassumption. }
  destruct E as [e E]. exists e. eexists. apply plan_throw_fetch. exact E.
Qed.

Lemma fetch_failure_is_atomic_witness :
  (exists e l, getRoutes Sample.net_no_match [0; 1; 2]%nat Sample.asked Sample.estimated
               = (Ok tt, Sample.estimated, l ++ [ErrRoutes e]))
  /\
  (exists e l, getRoutes Sample.net_route_down [1; 2; 0]%nat Sample.asked Sample.estimated
               = (Ok tt, Sample.estimated, l ++ [ErrRoutes e])).
Proof.
  split.
  - apply fetch_failure_is_atomic. right. left. left. reflexivity.
  - apply fetch_failure_is_atomic. right. right.
    exists (userCoords initial), (parseFloat "28.6129", parseFloat "77.2295"),
           2%nat, (AxiosError "ERR_NETWORK").
    repeat split; vm_compute; auto.
Defined.

(** C7, as the specification has it, fails: the geocoder's first candidate
    is parsed and returned as it is; a candidate with latitude "91"
    resolves to the latitude 91. *)
Lemma far_north_is_returned :
  outcome (getCoordinates Sample.net_far_north "Alert, Nunavut" initial)
    = Ok (91, 0)%float
  /\ in_range (91, 0)%float = false.
Proof. split; vm_compute; reflexivity. Qed.

(** C7, amended.  The resolution of an address succeeds exactly when the
    geocoder's answer has a first candidate, whatever that candidate
    holds, and the coordinate returned is then [parseFloat] of its [lat]
    and [parseFloat] of its [lon], with no condition on the range of
    either number. *)
Theorem resolved_is_first_candidate_parsed
        (net : Net) (address : string) (s : State) (c : LatLng) :
  outcome (getCoordinates net address s) = Ok c <->
  exists first rest,
    search net address = Ok (first :: rest) /\
    c = (parseFloat (lat first), parseFloat (lon first)).
Proof.
  rewrite getCoordinates_eq. split.
  - destruct (search net address) as [[|first rest]|e]; try discriminate.
    unfold outcome. simpl. intros H. injection H as <-.
    exists first, rest. auto.
  - intros (first & rest & -> & ->). reflexivity.
Qed.

Lemma resolved_is_first_candidate_parsed_witness :
  (exists first rest,
      search Sample.net_ok "India Gate, Delhi" = Ok (first :: rest) /\
      (28.6129, 77.2295)%float
      = (parseFloat (lat first), parseFloat (lon first)))
  /\
  outcome (getCoordinates Sample.net_far_north "Alert, Nunavut" initial)
  = Ok (parseFloat "91", parseFloat "0").
Proof.
  split.
  - apply (proj1 (resolved_is_first_candidate_parsed
                    Sample.net_ok "India Gate, Delhi" initial
                    (28.6129, 77.2295)%float)).
    vm_compute. reflexivity.
  - apply (proj2 (resolved_is_first_candidate_parsed
                    Sample.net_far_north "Alert, Nunavut" initial
                    (parseFloat "91", parseFloat "0"))).
    exists {| lat := "91"; lon := "0" |}, []. split; reflexivity.
Defined.

(** C8.  After a fetch that succeeds, the route stored at index [i] holds
    the points of the geometry of the first route of the answer to the
    request for alternative [i]: as many, in the same order, each pair
    (longitude, latitude) turned into (latitude, longitude). *)
Theorem stored_route_is_swapped_geometry
        (net : Net) (order : list nat) (cl s : State) (i : nat) (r : Route) :
  outcome (getRoutes_try net order cl s) = Ok tt ->
  nth_error (routes (state_after (getRoutes net order cl s))) i = Some r ->
  exists start end_ data first rest,
    start_of net cl = Ok start /\
    resolve net (destination cl) = Ok end_ /\
    route net (routeRequest start end_ i) = Ok data /\
    OSRM.routes data = first :: rest /\
    coords r = map swap_lng_lat (OSRM.coordinates (OSRM.geometry first)) /\
    List.length (coords r)
      = List.length (OSRM.coordinates (OSRM.geometry first)) /\
    (forall k lng lat,
        nth_error (OSRM.coordinates (OSRM.geometry first)) k = Some (lng, lat) ->
        nth_error (coords r) k = Some (lat, lng)).
Proof.
  intros Hok Hi. destruct (try_ok_plan _ _ _ _ Hok) as [l E].
  rewrite getRoutes_state, E in Hi. simpl in Hi.
  apply fetch_plan_ok in E.
  destruct E as (start & end_ & r0 & r1 & r2 & Hs & He & H0 & H1 & H2 & ->).
  assert (F : fetchRoute net start end_ i = Ok r).
  { destruct i as [|[|[|i]]]; simpl in Hi.
    - now injection Hi as <-.
    - now injection Hi as <-.
    - now injection Hi as <-.
    - destruct i; discriminate. }
  destruct (fetchRoute_ok_inv _ _ _ _ _ F) as (data & first & rest & Hr & Hd & ->).
  exists start, end_, data, first, rest. simpl.
  repeat split; auto.
  - apply length_map.
  - intros k lng lat. apply swap_lng_lat_nth.
Qed.

Lemma stored_route_is_swapped_geometry_witness :
  exists start end_ data first rest,
    start_of Sample.net_ok Sample.asked = Ok start /\
    resolve Sample.net_ok (destination Sample.asked) = Ok end_ /\
    route Sample.net_ok (routeRequest start end_ 1) = Ok data /\
    OSRM.routes data = first :: rest /\
    [ (20.5937, 78.9629); (24.5, 78.1); (28.6129, 77.2295) ]%float
      = map swap_lng_lat (OSRM.coordinates (OSRM.geometry first)) /\
    3%nat = List.length (OSRM.coordinates (OSRM.geometry first)) /\
    (forall k lng lat,
        nth_error (OSRM.coordinates (OSRM.geometry first)) k = Some (lng, lat) ->
        nth_error [ (20.5937, 78.9629); (24.5, 78.1); (28.6129, 77.2295) ]%float k
          = Some (lat, lng)).
Proof.
  apply (stored_route_is_swapped_geometry
           Sample.net_ok [0; 1; 2]%nat Sample.asked Sample.asked 1
           {| coords := [ (20.5937, 78.9629); (24.5, 78.1); (28.6129, 77.2295) ]%float;
              endCoords := (28.6129, 77.2295)%float |});
    vm_compute; reflexivity.
Defined.

(** C10.  After a fetch that succeeds, every route of the list carries as
    [endCoords] the coordinate the destination address of that fetch
    resolved to; so does the first one, from which the end marker is
    drawn. *)
Theorem routes_share_destination (net : Net) (order : list nat) (cl s : State) :
  outcome (getRoutes_try net order cl s) = Ok tt ->
  exists end_,
    resolve net (destination cl) = Ok end_ /\
    List.length (routes (state_after (getRoutes net order cl s))) = 3%nat /\
    (forall r, In r (routes (state_after (getRoutes net order cl s))) ->
               endCoords r = end_) /\
    (exists r0, nth_error (routes (state_after (getRoutes net order cl s))) 0
                  = Some r0 /\ endCoords r0 = end_).
Proof.
  intros Hok. destruct (try_ok_plan _ _ _ _ Hok) as [l E].
  rewrite getRoutes_state, E. simpl.
  apply fetch_plan_ok in E.
  destruct E as (start & end_ & r0 & r1 & r2 & Hs & He & H0 & H1 & H2 & ->).
  apply fetchRoute_ok_inv in H0, H1, H2.
  destruct H0 as (? & ? & ? & _ & _ & ->).
  destruct H1 as (? & ? & ? & _ & _ & ->).
  destruct H2 as (? & ? & ? & _ & _ & ->).
  exists end_. repeat split; auto.
  - intros r [<-|[<-|[<-|[]]]]; reflexivity.
  - eexists. split; reflexivity.
Qed.

Lemma routes_share_destination_witness :
  exists end_,
    resolve Sample.net_ok (destination Sample.asked) = Ok end_ /\
    List.length (routes (state_after
      (getRoutes Sample.net_ok [0; 1; 2]%nat Sample.asked Sample.asked))) = 3%nat /\
    (forall r, In r (routes (state_after
      (getRoutes Sample.net_ok [0; 1; 2]%nat Sample.asked Sample.asked))) ->
               endCoords r = end_) /\
    (exists r0, nth_error (routes (state_after
      (getRoutes Sample.net_ok [0; 1; 2]%nat Sample.asked Sample.asked))) 0
                  = Some r0 /\ endCoords r0 = end_).
Proof.
  apply routes_share_destination. vm_compute. reflexivity.
Defined.

(** * Further properties *)

(** ** Helper facts *)


Lemma first_rejection_skip {A} (pre post : list nat) (j : nat)
      (rs : list (result A)) (e : Exn) :
  (forall i, In i pre -> forall e', nth_error rs i <> Some (Throw e')) ->
  nth_error rs j = Some (Throw e) ->
  first_rejection (pre ++ j :: post) rs = Some e.
Proof.
  intros Hpre Hj. induction pre as [|i pre IH]; simpl.
  - now rewrite Hj.
  - destruct (nth_error rs i) as [[a|e']|] eqn:E.
    + apply IH. intros i' Hi'. apply Hpre. now right.
    + exfalso. apply (Hpre i (or_introl eq_refl) e'). exact E.
    + apply IH. intros i' Hi'. apply Hpre. now right.
Qed.

Lemma nth_error_three {A} (f : nat -> A) (i : nat) :
  nth_error (map f [0; 1; 2]%nat) i
  = if (i <? 3)%nat then Some (f i) else None.
Proof.
  destruct i as [|[|[|i]]]; try reflexivity.
  simpl. now destruct i.
Qed.

Lemma bind_cong {A B} (m m' : M A) (k k' : A -> M B) (s : State) :
  m s = m' s ->
  (forall a s1 l1, m s = (Ok a, s1, l1) -> k a s1 = k' a s1) ->
  bind m k s = bind m' k' s.
Proof.
  intros E H. unfold bind. rewrite <- E.
  destruct (m s) as [[[a|e] s1] l1]; [|reflexivity].
  now rewrite (H a s1 l1 eq_refl).
Qed.

Lemma resolution_failure_shape
      (net : Net) (address : string) (s : State) (e : Exn) :
  outcome (getCoordinates net address s) = Throw e ->
  printed (getCoordinates net address s) = [ErrCoordinates e] /\
  state_after (getCoordinates net address s) = s.
Proof.
  rewrite getCoordinates_eq.
  destruct (search net address) as [[|first rest]|e0]; unfold outcome; simpl;
    intros H; try discriminate; injection H as <-; auto.
Qed.

(** ** [handleChooseRoute] outside its happy path (lines 157-168) *)

(** X1.  With a selection beyond the route list, [routes[selectedRoute]] is
    [undefined] and reading [coords] from it throws a [TypeError]: the
    handler is left before it prints or sets anything. *)
Theorem choose_beyond_list_throws (cl s : State) (i : nat) :
  selectedRoute cl = Some i ->
  (List.length (routes cl) <= i)%nat ->
  handleChooseRoute cl s = (Throw TypeError, s, []).
Proof.
  intros Hsel Hlen. unfold handleChooseRoute. rewrite Hsel.
  apply nth_error_None in Hlen. now rewrite Hlen.
Qed.

Lemma choose_beyond_list_throws_witness :
  handleChooseRoute Scenes.beyond Scenes.beyond
  = (Throw TypeError, Scenes.beyond, []).
Proof.
  apply (choose_beyond_list_throws Scenes.beyond Scenes.beyond 7).
  - vm_compute. reflexivity.
  - vm_compute. lia.
Defined.

(** X2.  On the state of any render the component can reach, the handler does
    not throw: the selection it reads is an index of the list it reads. *)
Theorem choose_safe_when_reachable (sys : Sys) :
  reachable sys ->
  outcome (handleChooseRoute (ui sys) (ui sys)) = Ok tt.
Proof.
  intros R. pose proof (reachable_selection_valid _ R) as V.
  unfold selection_valid in V. unfold handleChooseRoute.
  destruct (selectedRoute (ui sys)) as [i|]; [|reflexivity].
  destruct (nth_error (routes (ui sys)) i) as [r|] eqn:E; [reflexivity|].
  apply nth_error_None in E. lia.
Qed.

Lemma choose_safe_when_reachable_witness :
  outcome (handleChooseRoute Sample.picked Sample.picked) = Ok tt.
Proof.
  apply (choose_safe_when_reachable {| ui := Sample.picked; inflight := [] |}).
  exists [TypeDestination "India Gate, Delhi"; ClickSearch;
          Settled 0 Sample.net_ok [0; 1; 2]%nat; ClickPolyline 1].
  vm_compute. reflexivity.
Defined.

(** X3.  Confirming writes the two estimates and nothing else, and confirming a
    second time from the same render changes nothing more. *)
Theorem choose_touches_estimates_only (cl s : State) :
  let s' := state_after (handleChooseRoute cl s) in
  userCoords s' = userCoords s /\
  userAddress s' = userAddress s /\
  destination s' = destination s /\
  routes s' = routes s /\
  selectedRoute s' = selectedRoute s /\
  fullscreen s' = fullscreen s /\
  state_after (handleChooseRoute cl s') = s'.
Proof.
  unfold handleChooseRoute.
  destruct (selectedRoute cl) as [i|]; [|repeat split].
  destruct (nth_error (routes cl) i) as [r|]; repeat split.
Qed.

(** ** [getCoordinates] (lines 112-124) *)

(** X4.  When the resolution fails, the exception thrown to the caller is the
    one that was printed, the state is untouched, and the cause is either
    an answer without candidates ('Invalid address') or the rejection of
    the request, passed on as it is. *)
Theorem resolution_failure_is_logged_and_rethrown
        (net : Net) (address : string) (s : State) (e : Exn) :
  outcome (getCoordinates net address s) = Throw e ->
  printed (getCoordinates net address s) = [ErrCoordinates e] /\
  state_after (getCoordinates net address s) = s /\
  ((search net address = Ok [] /\ e = Error "Invalid address")
   \/ search net address = Throw e).
Proof.
  rewrite getCoordinates_eq.
  destruct (search net address) as [[|first rest]|e0]; unfold outcome; simpl;
    intros H; try discriminate; injection H as <-; auto.
Qed.

Lemma resolution_failure_is_logged_and_rethrown_witness :
  printed (getCoordinates Sample.net_no_match "Atlantis" initial)
    = [ErrCoordinates (Error "Invalid address")] /\
  state_after (getCoordinates Sample.net_no_match "Atlantis" initial) = initial /\
  ((search Sample.net_no_match "Atlantis" = Ok [] /\
    Error "Invalid address" = Error "Invalid address")
   \/ search Sample.net_no_match "Atlantis" = Throw (Error "Invalid address")).
Proof.
  apply resolution_failure_is_logged_and_rethrown. reflexivity.
Defined.

(** ** [getRoutes] (lines 126-150) *)

(** X5.  A fetch, successful or not, leaves the position, the two inputs, the
    estimate and the display mode as they are: an estimate computed for an
    earlier route list stays on display beside the new routes. *)
Theorem fetch_keeps_inputs_and_estimate
        (net : Net) (order : list nat) (cl s : State) :
  let s' := state_after (getRoutes net order cl s) in
  userCoords s' = userCoords s /\
  userAddress s' = userAddress s /\
  destination s' = destination s /\
  estimatedTime s' = estimatedTime s /\
  estimatedCost s' = estimatedCost s /\
  fullscreen s' = fullscreen s /\
  estimate_displayed s' = estimate_displayed s.
Proof.
  cbv zeta. rewrite getRoutes_state.
  destruct (fetch_plan net order cl); repeat split.
Qed.

(** X6.  When the pickup address is set and its resolution fails, the fetch
    stops there: the console shows the failure twice, once from
    [getCoordinates] and once from [getRoutes], and nothing about the
    destination, which is not looked up. *)
Theorem pickup_failure_stops_fetch
        (net : Net) (order : list nat) (cl s : State) (e : Exn) :
  truthy_string (userAddress cl) = true ->
  outcome (getCoordinates net (userAddress cl) s) = Throw e ->
  getRoutes net order cl s = (Ok tt, s, [ErrCoordinates e; ErrRoutes e]).
Proof.
  intros Ht He.
  destruct (resolution_failure_shape net (userAddress cl) s e He) as [Hp Hs].
  unfold getRoutes, try_catch, getRoutes_try, bind at 1. rewrite Ht.
  destruct (getCoordinates net (userAddress cl) s) as [[r1 s1] l1].
  unfold outcome, printed, state_after in He, Hp, Hs. simpl in He, Hp, Hs.
  subst r1 l1 s1. reflexivity.
Qed.

Lemma pickup_failure_stops_fetch_witness :
  getRoutes Sample.net_no_match [0; 1; 2]%nat
            (setUserAddress "Atlantis" Sample.asked) Sample.fetched
  = (Ok tt, Sample.fetched,
     [ErrCoordinates (Error "Invalid address");
      ErrRoutes (Error "Invalid address")]).
Proof.
  apply pickup_failure_stops_fetch; reflexivity.
Defined.

(** X7.  A fetch reads the services through five requests at most: the search
    for the pickup address when it is set, the search for the destination,
    and the three routing requests between the two resolved points.
    Services that answer these alike give the same fetch, console
    included. *)
Theorem fetch_reads_five_answers
        (net net' : Net) (order : list nat) (cl s : State) :
  (truthy_string (userAddress cl) = true ->
   search net (userAddress cl) = search net' (userAddress cl)) ->
  search net (destination cl) = search net' (destination cl) ->
  (forall start end_ i,
      start_of net cl = Ok start ->
      resolve net (destination cl) = Ok end_ ->
      In i [0; 1; 2]%nat ->
      route net (routeRequest start end_ i)
      = route net' (routeRequest start end_ i)) ->
  getRoutes net order cl s = getRoutes net' order cl s.
Proof.
  intros Hp Hd Hr.
  assert (E : getRoutes_try net order cl s = getRoutes_try net' order cl s).
  { unfold getRoutes_try. apply bind_cong.
    - destruct (truthy_string (userAddress cl)); [|reflexivity].
      rewrite !getCoordinates_eq, Hp; reflexivity.
    - intros start s1 l1 HP.
      destruct (start_lookup_eq net cl s) as [Ho Hs]. cbv zeta in Ho, Hs.
      rewrite HP in Ho, Hs. unfold outcome, state_after in Ho, Hs.
      simpl in Ho, Hs. subst s1. symmetry in Ho.
      apply bind_cong.
      + rewrite !getCoordinates_eq, Hd; reflexivity.
      + intros end_ s2 l2 HD.
        pose proof (getCoordinates_outcome net (destination cl) s) as Ho2.
        pose proof (getCoordinates_state net (destination cl) s) as Hs2.
        rewrite HD in Ho2, Hs2. unfold outcome, state_after in Ho2, Hs2.
        simpl in Ho2, Hs2. subst s2. symmetry in Ho2.
        assert (F : map (fetchRoute net start end_) [0; 1; 2]%nat
                    = map (fetchRoute net' start end_) [0; 1; 2]%nat).
        { apply map_ext_in. intros i Hi. unfold fetchRoute.
          now rewrite (Hr start end_ i Ho Ho2 Hi). }
        now rewrite F. }
  unfold getRoutes, try_catch. now rewrite E.
Qed.

Lemma fetch_reads_five_answers_witness :
  getRoutes Scenes.net_two_places [0; 1; 2]%nat Sample.asked Sample.asked
  = getRoutes {| search := fun a =>
                   if String.eqb a "India Gate, Delhi"
                   then Scenes.two_places a
                   else Throw (AxiosError "ERR_NETWORK");
                 route := Scenes.straight |}
              [0; 1; 2]%nat Sample.asked Sample.asked.
Proof.
  apply fetch_reads_five_answers.
  - vm_compute. discriminate.
  - vm_compute. reflexivity.
  - intros start end_ i _ _ _. reflexivity.
Defined.

(** X8.  When the two ends resolve and some routing request fails, the error
    the fetch prints last is the failure of one of the three requests. *)
Theorem routing_failure_prints_a_request_error
        (net : Net) (order : list nat) (cl s : State)
        (start end_ : LatLng) (i : nat) (e : Exn) :
  start_of net cl = Ok start ->
  resolve net (destination cl) = Ok end_ ->
  In i [0; 1; 2]%nat ->
  fetchRoute net start end_ i = Throw e ->
  exists j e' l,
    In j [0; 1; 2]%nat /\
    fetchRoute net start end_ j = Throw e' /\
    getRoutes net order cl s = (Ok tt, s, l ++ [ErrRoutes e']).
Proof.
  intros Hs He Hi Hf.
  destruct (fetch_plan_route_fails net order cl _ _ _ _ Hs He Hi Hf) as [e' E].
  assert (G : In (Throw e') (map (fetchRoute net start end_) [0; 1; 2]%nat)).
  { unfold fetch_plan in E. rewrite Hs, He in E.
    eapply Promise_all_throw_in. exact E. }
  apply in_map_iff in G. destruct G as (j & Hj & Hin).
  exists j, e'. eexists. repeat split; [exact Hin | exact Hj |].
  apply plan_throw_fetch. exact E.
Qed.

Lemma routing_failure_prints_a_request_error_witness :
  exists j e' l,
    In j [0; 1; 2]%nat /\
    fetchRoute Scenes.net_two_down (userCoords initial)
               (parseFloat "28.6129", parseFloat "77.2295") j = Throw e' /\
    getRoutes Scenes.net_two_down [1; 2; 0]%nat Sample.asked Sample.asked
    = (Ok tt, Sample.asked, l ++ [ErrRoutes e']).
Proof.
  apply (routing_failure_prints_a_request_error
           Scenes.net_two_down [1; 2; 0]%nat Sample.asked Sample.asked
           (userCoords initial) (parseFloat "28.6129", parseFloat "77.2295")
           0 (AxiosError "ECONNABORTED"));
    vm_compute; auto.
Defined.

(** X9.  With [Promise.all], the error a fetch prints is the failure of
    the request that settles first among the failed ones.  If every request that settles before request [j] is
    fulfilled and request [j] fails with [e], the fetch prints [e]. *)
Theorem routing_failure_prints_first_settled
        (net : Net) (pre post : list nat) (cl s : State)
        (start end_ : LatLng) (j : nat) (e : Exn) :
  start_of net cl = Ok start ->
  resolve net (destination cl) = Ok end_ ->
  (forall i, In i pre -> exists r, fetchRoute net start end_ i = Ok r) ->
  In j [0; 1; 2]%nat ->
  fetchRoute net start end_ j = Throw e ->
  exists l,
    getRoutes net (pre ++ j :: post) cl s = (Ok tt, s, l ++ [ErrRoutes e]).
Proof.
  intros Hs He Hpre Hj Hf. eexists. apply plan_throw_fetch.
  unfold fetch_plan. rewrite Hs, He. unfold Promise_all.
  assert (G : In (Throw e) (map (fetchRoute net start end_) [0; 1; 2]%nat))
    by (rewrite <- Hf; now apply in_map).
  destruct (settle_all_throw _ _ G) as [e0 ->].
  rewrite (first_rejection_skip pre post j _ e); [reflexivity| |].
  - intros i Hi e' Hn. rewrite nth_error_three in Hn.
    destruct (i <? 3)%nat; [|discriminate].
    destruct (Hpre i Hi) as [r Hr]. congruence.
  - rewrite nth_error_three.
    assert (L : (j <? 3)%nat = true)
      by (apply Nat.ltb_lt; simpl in Hj; lia).
    now rewrite L, Hf.
Qed.

Lemma routing_failure_prints_first_settled_witness :
  exists l,
    getRoutes Scenes.net_two_down ([1%nat] ++ 2%nat :: [0%nat])
              Sample.asked Sample.asked
    = (Ok tt, Sample.asked, l ++ [ErrRoutes (AxiosError "ERR_NETWORK")]).
Proof.
  apply (routing_failure_prints_first_settled
           Scenes.net_two_down [1%nat] [0%nat] Sample.asked Sample.asked
           (userCoords initial) (parseFloat "28.6129", parseFloat "77.2295")).
  - vm_compute. reflexivity.
  - vm_compute. reflexivity.
  - intros i [<-|[]]. eexists. vm_compute. reflexivity.
  - simpl. auto.
  - vm_compute. reflexivity.
Defined.

(** ** Coordinate order (lines 137 and 139) *)

(** X10.  The swap of line 139 and the request of line 137 undo each other: a
    geometry swapped twice is the geometry, and two points taken from a
    geometry are sent back to OSRM in the order they came in, longitude
    first. *)
Theorem coordinate_order_round_trip
        (g : list (number * number)) (p q : number * number) (i : nat) :
  map swap_lng_lat (map swap_lng_lat g) = g /\
  routeRequest (swap_lng_lat p) (swap_lng_lat q) i
  = {| from_lng := fst p; from_lat := snd p;
       to_lng := fst q; to_lat := snd q; alternatives := i |}.
Proof.
  split.
  - rewrite map_map. rewrite <- (map_id g) at 2.
    apply map_ext. intros [lng lat]. reflexivity.
  - destruct p, q. reflexivity.
Qed.

(** ** The component over time *)

(** X11.  In every reachable state the route list is empty or holds exactly
    three routes with one and the same destination, which is where the end
    marker stands. *)
Theorem reachable_routes_three_to_one_place (sys : Sys) :
  reachable sys ->
  (routes (ui sys) = [] /\ endMarker (render (ui sys)) = None)
  \/ exists r0 r1 r2,
       routes (ui sys) = [r0; r1; r2] /\
       endCoords r1 = endCoords r0 /\
       endCoords r2 = endCoords r0 /\
       endMarker (render (ui sys)) = Some (endCoords r0).
Proof.
  apply (reachable_ind
           (fun st =>
              (routes st = [] /\ endMarker (render st) = None)
              \/ exists r0 r1 r2,
                   routes st = [r0; r1; r2] /\
                   endCoords r1 = endCoords r0 /\
                   endCoords r2 = endCoords r0 /\
                   endMarker (render st) = Some (endCoords r0))).
  - left. split; reflexivity.
  - intros ev s0 s' H F.
    destruct ev; try (rewrite choose_never_delivered in F; discriminate);
      simpl in F; try (injection F as <-; exact H).
    + destruct (nth_error (inflight s0) k) as [cl|]; [|discriminate].
      injection F as <-. simpl. rewrite getRoutes_state.
      destruct (fetch_plan net order cl) as [l|e] eqn:E; [|exact H].
      apply fetch_plan_ok in E.
      destruct E as (start & end_ & r0 & r1 & r2 & _ & _ & H0 & H1 & H2 & ->).
      apply fetchRoute_ok_inv in H0, H1, H2.
      destruct H0 as (? & ? & ? & _ & _ & ->).
      destruct H1 as (? & ? & ? & _ & _ & ->).
      destruct H2 as (? & ? & ? & _ & _ & ->).
      right. do 3 eexists. repeat split.
    + destruct (polyline_clickable (ui s0) i); [|discriminate].
      injection F as <-. exact H.
Qed.

Lemma reachable_routes_three_to_one_place_witness :
  (routes Sample.fetched = [] /\ endMarker (render Sample.fetched) = None)
  \/ exists r0 r1 r2,
       routes Sample.fetched = [r0; r1; r2] /\
       endCoords r1 = endCoords r0 /\
       endCoords r2 = endCoords r0 /\
       endMarker (render Sample.fetched) = Some (endCoords r0).
Proof.
  apply (reachable_routes_three_to_one_place
           {| ui := Sample.fetched; inflight := [] |}).
  exists [TypeDestination "India Gate, Delhi"; ClickSearch;
          Settled 0 Sample.net_ok [0; 1; 2]%nat].
  vm_compute. reflexivity.
Defined.



(** X13.  The Choose button is never enabled, in any state; so no estimate is
    ever computed and the estimate panel never appears in a state the
    component can reach. *)
Theorem estimate_never_appears (s : State) (sys : Sys) :
  chooseButton (render s) <> Some false /\
  (reachable sys ->
   estimatedTime (ui sys) = None /\
   estimatedCost (ui sys) = None /\
   estimatePanel (render (ui sys)) = Nothing).
Proof.
  split.
  - unfold render, choose_rendered, choose_disabled. simpl.
    destruct (selectedRoute s); simpl.
    + rewrite andb_false_r. discriminate.
    + destruct (0 <? List.length (routes s))%nat; simpl; discriminate.
  - intros R. destruct (reachable_no_estimate _ R) as [Ht Hc].
    repeat split; auto. unfold render. simpl. now rewrite Ht.
Qed.

Lemma estimate_never_appears_witness :
  chooseButton (render Sample.fetched) <> Some false /\
  estimatedTime Sample.picked = None /\
  estimatedCost Sample.picked = None /\
  estimatePanel (render Sample.picked) = Nothing.
Proof.
  destruct (estimate_never_appears
              Sample.fetched {| ui := Sample.picked; inflight := [] |})
    as [H1 H2].
  split; [exact H1|]. apply H2.
  exists [TypeDestination "India Gate, Delhi"; ClickSearch;
          Settled 0 Sample.net_ok [0; 1; 2]%nat; ClickPolyline 1].
  vm_compute. reflexivity.
Defined.

(** X14.  Once a route is selected no polyline accepts a click, and the
    selection and the route list stay as they are under every event but a
    fetch that settles; a fetch that succeeds returns to no selection. *)
Theorem selection_stays_until_next_fetch (s s' : Sys) (ev : Event) (i j : nat) :
  selectedRoute (ui s) = Some i ->
  fire (ClickPolyline j) s = None /\
  (fire ev s = Some s' ->
   (selectedRoute (ui s') = Some i /\ routes (ui s') = routes (ui s))
   \/ (selectedRoute (ui s') = None /\
       exists k net order cl,
         ev = Settled k net order /\
         nth_error (inflight s) k = Some cl /\
         fetch_plan net order cl = Ok (routes (ui s')))).
Proof.
  intros Hsel. split.
  - simpl. unfold polyline_clickable. now rewrite Hsel.
  - intros F.
    destruct ev; try (rewrite choose_never_delivered in F; discriminate);
      simpl in F; try (injection F as <-; left; split; [exact Hsel | reflexivity]).
    + destruct (nth_error (inflight s) k) as [cl|] eqn:N; [|discriminate].
      injection F as <-. simpl. rewrite getRoutes_state.
      destruct (fetch_plan net order cl) as [l|e] eqn:E.
      * right. split; [reflexivity|]. exists k, net, order, cl. auto.
      * left. split; [exact Hsel | reflexivity].
    + unfold polyline_clickable in F. rewrite Hsel in F. discriminate.
Qed.

Lemma selection_stays_until_next_fetch_witness :
  fire (ClickPolyline 2) {| ui := Sample.picked; inflight := [] |} = None /\
  ((selectedRoute (setDestination "Agra" Sample.picked) = Some 1%nat /\
    routes (setDestination "Agra" Sample.picked) = routes Sample.picked)
   \/ (selectedRoute (setDestination "Agra" Sample.picked) = None /\
       exists k net order cl,
         TypeDestination "Agra" = Settled k net order /\
         nth_error (@nil State) k = Some cl /\
         fetch_plan net order cl
         = Ok (routes (setDestination "Agra" Sample.picked)))).
Proof.
  destruct (selection_stays_until_next_fetch
              {| ui := Sample.picked; inflight := [] |}
              {| ui := setDestination "Agra" Sample.picked; inflight := [] |}
              (TypeDestination "Agra") 1 2) as [H1 H2].
  - vm_compute. reflexivity.
  - split; [exact H1 | apply H2; vm_compute; reflexivity].
Defined.

(** X15.  A fetch that settles installs the routes of the search it was started
    for: they lead to the destination typed when 'Search Routes' was
    clicked.  The inputs keep what has been typed since, so the routes on
    the map may lead elsewhere than the destination on display, and an old
    search answered late replaces the routes of a newer one. *)
Theorem late_answer_installs_its_own_search
        (s : Sys) (k : nat) (net : Net) (order : list nat)
        (cl : State) (l : list Route) :
  nth_error (inflight s) k = Some cl ->
  fetch_plan net order cl = Ok l ->
  exists s',
    fire (Settled k net order) s = Some s' /\
    routes (ui s') = l /\
    selectedRoute (ui s') = None /\
    destination (ui s') = destination (ui s) /\
    userAddress (ui s') = userAddress (ui s) /\
    (forall r, In r l -> resolve net (destination cl) = Ok (endCoords r)).
Proof.
  intros N E. simpl. rewrite N. eexists. split; [reflexivity|].
  simpl. rewrite getRoutes_state, E. repeat split.
  apply fetch_plan_ok in E.
  destruct E as (start & end_ & r0 & r1 & r2 & _ & He & H0 & H1 & H2 & ->).
  apply fetchRoute_ok_inv in H0, H1, H2.
  destruct H0 as (? & ? & ? & _ & _ & ->).
  destruct H1 as (? & ? & ? & _ & _ & ->).
  destruct H2 as (? & ? & ? & _ & _ & ->).
  intros r [<-|[<-|[<-|[]]]]; exact He.
Qed.

Lemma late_answer_installs_its_own_search_witness :
  destination (ui Scenes.overtaken) = "Gateway of India, Mumbai" /\
  exists s',
    fire (Settled 0 Scenes.net_two_places [0; 1; 2]%nat) Scenes.overtaken
    = Some s' /\
    routes (ui s')
    = [ {| coords := [ (20.5937, 78.9629); (28.6129, 77.2295) ]%float;
           endCoords := (28.6129, 77.2295)%float |};
        {| coords := [ (20.5937, 78.9629); (28.6129, 77.2295) ]%float;
           endCoords := (28.6129, 77.2295)%float |};
        {| coords := [ (20.5937, 78.9629); (28.6129, 77.2295) ]%float;
           endCoords := (28.6129, 77.2295)%float |} ] /\
    selectedRoute (ui s') = None /\
    destination (ui s') = destination (ui Scenes.overtaken) /\
    userAddress (ui s') = userAddress (ui Scenes.overtaken) /\
    (forall r,
        In r [ {| coords := [ (20.5937, 78.9629); (28.6129, 77.2295) ]%float;
                  endCoords := (28.6129, 77.2295)%float |};
               {| coords := [ (20.5937, 78.9629); (28.6129, 77.2295) ]%float;
                  endCoords := (28.6129, 77.2295)%float |};
               {| coords := [ (20.5937, 78.9629); (28.6129, 77.2295) ]%float;
                  endCoords := (28.6129, 77.2295)%float |} ] ->
        resolve Scenes.net_two_places (destination Sample.asked)
        = Ok (endCoords r)).
Proof.
  split; [vm_compute; reflexivity|].
  apply (late_answer_installs_its_own_search
           Scenes.overtaken 0 Scenes.net_two_places [0; 1; 2]%nat Sample.asked);
    vm_compute; reflexivity.
Defined.

(** ** The rendered tree (lines 170-270) *)

Lemma in_map_indexed {A B} (f : A -> nat -> B) (l : list A) (k : nat) (p : B) :
  In p (map_indexed f k l) ->
  exists j x, nth_error l j = Some x /\ p = f x (k + j)%nat.
Proof.
  revert k. induction l as [|x l IH]; simpl; intros k; [tauto|].
  intros [<-|H].
  - exists 0%nat, x. split; [reflexivity|]. now rewrite Nat.add_0_r.
  - destruct (IH _ H) as (j & y & Hj & ->).
    exists (S j), y. split; [exact Hj|]. f_equal. lia.
Qed.

(** X16.  A polyline that accepts clicks is drawn only while nothing is
    selected; the index its handler passes on is that of the route it
    draws, in the colour of that index; and after the click that route is
    the one polyline left, in blue, with no handler. *)
Theorem clicked_polyline_is_the_one_kept (s : State) (p : PolylineEl) (i : nat) :
  In p (polylines (render s)) ->
  onClick p = Some i ->
  selectedRoute s = None /\
  (exists r, nth_error (routes s) i = Some r /\ positions p = coords r) /\
  color p = routeColor i /\
  polylines (render (state_after (handleRouteClick i s)))
  = [ {| positions := positions p; color := "blue";
         weight := None; onClick := None |} ].
Proof.
  unfold render at 1. simpl. intros Hin Hc.
  destruct (selectedRoute s) as [i0|] eqn:Hsel.
  - destruct (nth_error (routes s) i0); simpl in Hin; [|tauto].
    destruct Hin as [<-|[]]. discriminate.
  - apply in_map_indexed in Hin. destruct Hin as (j & x & Hj & ->).
    simpl in Hc. injection Hc as <-. simpl.
    repeat split; eauto. now rewrite Hj.
Qed.

Lemma clicked_polyline_is_the_one_kept_witness :
  selectedRoute Sample.fetched = None /\
  (exists r, nth_error (routes Sample.fetched) 1 = Some r /\
             [ (20.5937, 78.9629); (24.5, 78.1); (28.6129, 77.2295) ]%float
             = coords r) /\
  "green" = routeColor 1 /\
  polylines (render (state_after (handleRouteClick 1 Sample.fetched)))
  = [ {| positions := [ (20.5937, 78.9629); (24.5, 78.1); (28.6129, 77.2295) ]%float;
         color := "blue"; weight := None; onClick := None |} ].
Proof.
  apply (clicked_polyline_is_the_one_kept
           Sample.fetched
           {| positions := [ (20.5937, 78.9629); (24.5, 78.1); (28.6129, 77.2295) ]%float;
              color := "green"; weight := Some 5%nat; onClick := Some 1%nat |}).
  - vm_compute. right. left. reflexivity.
  - reflexivity.
Defined.

(** X17.  What the map shows in a reachable state is one of three pictures: no
    route, no end marker and no Choose button; three clickable polylines in
    blue, green and purple with the Choose button shown disabled; or the
    selected route alone, in blue, and no Choose button. *)
Theorem reachable_pictures (sys : Sys) :
  reachable sys ->
  let st := ui sys in
  let v := render st in
  (routes st = [] /\ polylines v = [] /\ endMarker v = None /\
   chooseButton v = None)
  \/ (exists r0 r1 r2,
         routes st = [r0; r1; r2] /\ selectedRoute st = None /\
         polylines v
         = [ {| positions := coords r0; color := "blue";
                weight := Some 5%nat; onClick := Some 0%nat |};
             {| positions := coords r1; color := "green";
                weight := Some 5%nat; onClick := Some 1%nat |};
             {| positions := coords r2; color := "purple";
                weight := Some 5%nat; onClick := Some 2%nat |} ] /\
         endMarker v = Some (endCoords r0) /\
         chooseButton v = Some true)
  \/ (exists r0 r1 r2 i r,
         routes st = [r0; r1; r2] /\ selectedRoute st = Some i /\
         nth_error [r0; r1; r2] i = Some r /\
         polylines v
         = [ {| positions := coords r; color := "blue";
                weight := None; onClick := None |} ] /\
         endMarker v = Some (endCoords r0) /\
         chooseButton v = None).
Proof.
  intros R. cbv zeta.
  pose proof (reachable_selection_valid _ R) as V.
  pose proof (reachable_routes_length _ R) as L.
  unfold selection_valid in V. unfold render, choose_rendered, choose_disabled.
  simpl.
  destruct (routes (ui sys)) as [|r0 [|r1 [|r2 [|r3 rs]]]] eqn:E;
    simpl in L; try (destruct L; discriminate).
  - left. destruct (selectedRoute (ui sys)) as [i|]; simpl in *; [lia|].
    repeat split.
  - right. destruct (selectedRoute (ui sys)) as [i|] eqn:Hsel.
    + right. simpl in V.
      destruct (nth_error [r0; r1; r2] i) as [r|] eqn:N.
      * exists r0, r1, r2, i, r. repeat split; auto.
      * apply nth_error_None in N. simpl in N. lia.
    + left. exists r0, r1, r2. repeat split.
Qed.

Lemma reachable_pictures_witness :
  chooseButton (render Sample.fetched) = Some true /\
  List.length (polylines (render Sample.fetched)) = 3%nat.
Proof.
  destruct (reachable_pictures {| ui := Sample.fetched; inflight := [] |})
    as [(H & _)|[(r0 & r1 & r2 & _ & _ & Hp & _ & Hc)|(? & ? & ? & ? & ? & _ & H & _)]].
  - exists [TypeDestination "India Gate, Delhi"; ClickSearch;
            Settled 0 Sample.net_ok [0; 1; 2]%nat].
    vm_compute. reflexivity.
  - vm_compute in H. discriminate.
  - cbn [ui] in Hp, Hc. split; [exact Hc|]. rewrite Hp. reflexivity.
  - vm_compute in H. discriminate.
Defined.

(** X18.  With a selection beyond the route list the guards
    [routes[selectedRoute] &&] keep the render and the map effect from
    throwing: no polyline is drawn, the Choose button is not rendered, and
    the map falls back to the first route when there is one. *)
Theorem dangling_selection_draws_nothing (s : State) (i : nat) :
  selectedRoute s = Some i ->
  (List.length (routes s) <= i)%nat ->
  polylines (render s) = [] /\
  chooseButton (render s) = None /\
  MapController s
  = [LogCentering (userCoords s); SetView (userCoords s) 13; InvalidateSize]
    ++ match routes s with
       | first :: _ => [LogFitFirst; FitBounds (coords first)]
       | [] => []
       end.
Proof.
  intros Hsel Hlen. apply nth_error_None in Hlen.
  unfold render, MapController, fitFirstRoute, choose_rendered. simpl.
  rewrite Hsel, Hlen, andb_false_r. repeat split.
  destruct (routes s); reflexivity.
Qed.

Lemma dangling_selection_draws_nothing_witness :
  polylines (render Scenes.beyond) = [] /\
  chooseButton (render Scenes.beyond) = None /\
  MapController Scenes.beyond
  = [LogCentering (userCoords Scenes.beyond);
     SetView (userCoords Scenes.beyond) 13; InvalidateSize]
    ++ match routes Scenes.beyond with
       | first :: _ => [LogFitFirst; FitBounds (coords first)]
       | [] => []
       end.
Proof.
  apply (dangling_selection_draws_nothing Scenes.beyond 7).
  - vm_compute. reflexivity.
  - vm_compute. lia.
Defined.

(** X19.  The estimate of a route without points is 0 minutes and 0 units, and
    [estimatedTime && ...] then evaluates to that 0: the slot of the
    estimate panel shows a bare 0 instead of the panel. *)
Theorem empty_route_estimate_shows_zero (cl s : State) (i : nat) (r : Route) :
  selectedRoute cl = Some i ->
  nth_error (routes cl) i = Some r ->
  coords r = [] ->
  let s' := state_after (handleChooseRoute cl s) in
  estimatedTime s' = Some 0%float /\
  estimatedCost s' = Some 0%float /\
  estimate_displayed s' = false /\
  estimatePanel (render s') = Number 0%float.
Proof.
  intros Hsel Hr Hc. unfold handleChooseRoute. rewrite Hsel, Hr, Hc.
  vm_compute. repeat split.
Qed.

Lemma empty_route_estimate_shows_zero_witness :
  estimatedTime (state_after (handleChooseRoute Scenes.pointless Scenes.pointless))
    = Some 0%float /\
  estimatedCost (state_after (handleChooseRoute Scenes.pointless Scenes.pointless))
    = Some 0%float /\
  estimate_displayed
    (state_after (handleChooseRoute Scenes.pointless Scenes.pointless)) = false /\
  estimatePanel
    (render (state_after (handleChooseRoute Scenes.pointless Scenes.pointless)))
    = Number 0%float.
Proof.
  apply (empty_route_estimate_shows_zero
           Scenes.pointless Scenes.pointless 0
           {| coords := []; endCoords := (28.6129, 77.2295)%float |});
    vm_compute; reflexivity.
Defined.

(** ** [MapController] (lines 92-110) *)

(** X20.  In a reachable state the map is centred on the user and then fitted:
    to the selected route when one is selected (the fallback of the
    [else if] is never taken for it), to the first route when none is
    selected, and not at all while there is no route. *)
Theorem map_fits_selected_else_first (sys : Sys) :
  reachable sys ->
  let st := ui sys in
  let centring := [LogCentering (userCoords st); SetView (userCoords st) 13;
                   InvalidateSize] in
  match selectedRoute st with
  | Some i =>
      exists r, nth_error (routes st) i = Some r /\
                MapController st
                = centring ++ [LogFitSelected i; FitBounds (coords r)]
  | None =>
      match routes st with
      | first :: _ =>
          MapController st = centring ++ [LogFitFirst; FitBounds (coords first)]
      | [] => MapController st = centring
      end
  end.
Proof.
  intros R. cbv zeta.
  pose proof (reachable_selection_valid _ R) as V.
  unfold selection_valid in V. unfold MapController, fitFirstRoute.
  destruct (selectedRoute (ui sys)) as [i|].
  - destruct (nth_error (routes (ui sys)) i) as [r|] eqn:N.
    + exists r. split; reflexivity.
    + apply nth_error_None in N. lia.
  - destruct (routes (ui sys)); reflexivity.
Qed.

Lemma map_fits_selected_else_first_witness :
  exists r, nth_error (routes Sample.picked) 1 = Some r /\
            MapController Sample.picked
            = [LogCentering (userCoords Sample.picked);
               SetView (userCoords Sample.picked) 13; InvalidateSize]
              ++ [LogFitSelected 1; FitBounds (coords r)].
Proof.
  apply (map_fits_selected_else_first {| ui := Sample.picked; inflight := [] |}).
  exists [TypeDestination "India Gate, Delhi"; ClickSearch;
          Settled 0 Sample.net_ok [0; 1; 2]%nat; ClickPolyline 1].
  vm_compute. reflexivity.
Defined.

(** ** The mount effect and the start of a fetch (lines 64-89, 128) *)

(** X21.  After the device has been located the position is stored whatever the
    reverse geocoding does.  When the reverse geocoding names the place, a
    later fetch does not start from the stored position: it starts from
    whatever the search for that name returns, and fails when the name
    cannot be resolved.  When the reverse geocoding fails and no address
    was typed, the fetch starts from the stored position. *)
Theorem located_fetch_starts_from_named_place
        (cl s : State) (latitude longitude : number)
        (reverse : number -> number -> result NominatimReverseResponse)
        (net : Net) :
  let s' := fst (mountEffect cl (Position latitude longitude) reverse s) in
  userCoords s' = (latitude, longitude) /\
  (forall data,
      reverse latitude longitude = Ok data ->
      truthy_string (display_name data) = true ->
      userAddress s' = display_name data /\
      start_of net s' = resolve net (display_name data)) /\
  (forall e,
      reverse latitude longitude = Throw e ->
      userAddress s = "" ->
      start_of net s' = Ok (latitude, longitude)).
Proof.
  cbv zeta. unfold mountEffect, onPosition, onReverseSettled.
  destruct (reverse latitude longitude) as [data|e]; simpl;
    (split; [reflexivity|]); split.
  - intros d H Ht. injection H as <-. split; [reflexivity|].
    unfold start_of. simpl. now rewrite Ht.
  - intros e H. discriminate.
  - intros d H. discriminate.
  - intros e' _ Ha. unfold start_of. simpl. now rewrite Ha.
Qed.

Lemma located_fetch_starts_from_named_place_witness :
  start_of Sample.net_no_match
    (fst (mountEffect initial (Position 28.6%float 77.2%float)
                      Scenes.reverse_ok initial))
  = Throw (Error "Invalid address")
  /\
  start_of Sample.net_no_match
    (fst (mountEffect initial (Position 28.6%float 77.2%float)
                      Scenes.reverse_down initial))
  = Ok (28.6, 77.2)%float.
Proof.
  split.
  - destruct (located_fetch_starts_from_named_place
                initial initial 28.6%float 77.2%float
                Scenes.reverse_ok Sample.net_no_match) as (_ & H & _).
    destruct (H {| display_name := "India Gate, Delhi" |} eq_refl eq_refl)
      as [_ ->].
    vm_compute. reflexivity.
  - destruct (located_fetch_starts_from_named_place
                initial initial 28.6%float 77.2%float
                Scenes.reverse_down Sample.net_no_match) as (_ & _ & H).
    exact (H (AxiosError "ERR_NETWORK") eq_refl eq_refl).
Defined.

(** ** The fullscreen button (lines 171, 262-267) *)

(** X22.  The button switches the display mode and nothing else, in the state
    and in the rendered tree beyond the root class and its own label; a
    second click restores the state. *)
Theorem fullscreen_toggles (s : Sys) :
  exists s1,
    fire ToggleFullscreen s = Some s1 /\
    fullscreen (ui s1) = negb (fullscreen (ui s)) /\
    fire ToggleFullscreen s1 = Some s /\
    pickupValue (render (ui s1)) = pickupValue (render (ui s)) /\
    destinationValue (render (ui s1)) = destinationValue (render (ui s)) /\
    chooseButton (render (ui s1)) = chooseButton (render (ui s)) /\
    estimatePanel (render (ui s1)) = estimatePanel (render (ui s)) /\
    userMarker (render (ui s1)) = userMarker (render (ui s)) /\
    endMarker (render (ui s1)) = endMarker (render (ui s)) /\
    polylines (render (ui s1)) = polylines (render (ui s)) /\
    MapController (ui s1) = MapController (ui s).
Proof.
  eexists. split; [reflexivity|]. split; [reflexivity|]. split.
  - destruct s as [[uc ua d rs sel et ec f] fl]. simpl.
    unfold setFullscreen. simpl. now rewrite negb_involutive.
  - repeat split.
Qed.
